(** * Content-approval application: access-control policies and content lifecycle

    A shallow embedding of the Supabase migrations (row-level-security
    policies, the [is_admin] helper, the [handle_new_user] trigger) and of
    the handlers of [Dashboard.tsx] / [AdminDashboard.tsx] that talk to
    them, followed by the properties of the access-control and lifecycle
    model. *)

From Stdlib Require Import ZArith Lia Ascii String.
From stdpp Require Import gmap strings list fin_maps sorting.

Open Scope Z_scope.

(** ** Strings, identifiers, time *)

(** A string value ([text] column, JavaScript string) is its sequence of
    UTF-16 code units. *)
Definition text := list N.

Definition lit (s : string) : text :=
  (fun a => N_of_ascii a) <$> list_ascii_of_string s.

(** [uuid] values only matter up to equality. *)
Definition uuid := text.

(** [timestamptz] / JavaScript [Date] instants: milliseconds since the epoch. *)
Definition timestamptz := Z.

(** ** Schema (20250225152712_billowing_paper.sql, rejection-notes migration) *)

Inductive table := profiles | content_items.

Inductive content_type_t := Post | Story | Reel | TikTok.

Inductive status_t := Approved | Rejected | Pending.

#[global] Instance table_eq_dec : EqDecision table.
Proof. solve_decision. Defined.
#[global] Instance content_type_eq_dec : EqDecision content_type_t.
Proof. solve_decision. Defined.
#[global] Instance status_eq_dec : EqDecision status_t.
Proof. solve_decision. Defined.

(** CHECK (content_type IN ('Post', 'Story', 'Reel', 'TikTok')) *)
Definition parse_content_type (s : text) : option content_type_t :=
  if decide (s = lit "Post") then Some Post
  else if decide (s = lit "Story") then Some Story
  else if decide (s = lit "Reel") then Some Reel
  else if decide (s = lit "TikTok") then Some TikTok
  else None.

(** CHECK (status IN ('Approved', 'Rejected', 'Pending')) *)
Definition parse_status (s : text) : option status_t :=
  if decide (s = lit "Approved") then Some Approved
  else if decide (s = lit "Rejected") then Some Rejected
  else if decide (s = lit "Pending") then Some Pending
  else None.

(** A row of [profiles] without its primary key [id]; nullable columns are
    options. *)
Module Profile.
Record t := mk {
  email : text;                     (* text UNIQUE NOT NULL *)
  full_name : option text;          (* text *)
  is_admin : option bool;           (* boolean DEFAULT false *)
  created_at : option timestamptz;  (* timestamptz DEFAULT now() *)
  updated_at : option timestamptz   (* timestamptz DEFAULT now() *)
}.
End Profile.

(** A row of [content_items] without its primary key [id];
    [rejection_notes] and [rejected_at] are the columns added by the
    rejection-notes migration. *)
Module ContentItem.
Record t := mk {
  caption : text;                      (* text NOT NULL *)
  content_type : content_type_t;       (* text NOT NULL CHECK (...) *)
  media_url : text;                    (* text NOT NULL *)
  status : option status_t;            (* text DEFAULT 'Pending' CHECK (...) *)
  schedule_date : option timestamptz;  (* timestamptz *)
  created_by : option uuid;            (* uuid REFERENCES profiles(id) *)
  assigned_to : option uuid;           (* uuid REFERENCES profiles(id) *)
  created_at : option timestamptz;
  updated_at : option timestamptz;
  rejection_notes : option text;
  rejected_at : option timestamptz
}.
End ContentItem.

(** Tables are keyed by their primary key. *)
Record database := mkDb {
  db_profiles : gmap uuid Profile.t;
  db_content_items : gmap uuid ContentItem.t
}.

(** ** The SQL fragment used by the policies *)

Inductive column := col_id | col_is_admin | col_assigned_to.

Inductive value := VNull | VBool (b : bool) | VUuid (u : uuid).

(** A row as seen by an expression. *)
Definition tuple := column -> value.

Definition profile_tuple (kp : uuid * Profile.t) : tuple :=
  fun c => match c with
           | col_id => VUuid kp.1
           | col_is_admin => from_option VBool VNull (Profile.is_admin kp.2)
           | col_assigned_to => VNull
           end.

Definition content_tuple (kc : uuid * ContentItem.t) : tuple :=
  fun c => match c with
           | col_id => VUuid kc.1
           | col_is_admin => VNull
           | col_assigned_to => from_option VUuid VNull (ContentItem.assigned_to kc.2)
           end.

Definition no_tuple : tuple := fun _ => VNull.

Definition rows (db : database) (t : table) : list tuple :=
  match t with
  | profiles => profile_tuple <$> map_to_list (db_profiles db)
  | content_items => content_tuple <$> map_to_list (db_content_items db)
  end.

Inductive expr :=
  | Col (c : column)                              (* a column of the current row *)
  | AuthUid                                       (* auth.uid() *)
  | BoolLit (b : bool)                            (* true / false *)
  | Eq (a b : expr)                               (* a = b *)
  | And (a b : expr)                              (* a AND b *)
  | Or (a b : expr)                               (* a OR b *)
  | Exists (t : table) (w : expr)                 (* EXISTS (SELECT 1 FROM t WHERE w) *)
  | Subselect (c : column) (t : table) (w : expr) (* (SELECT c FROM t WHERE w) *)
  | Call (f : string).                            (* f() *)

(** Three-valued logic. *)
Definition sql_eq (a b : value) : value :=
  match a, b with
  | VBool x, VBool y => VBool (bool_decide (x = y))
  | VUuid x, VUuid y => VBool (bool_decide (x = y))
  | _, _ => VNull
  end.

Definition sql_and (a b : value) : value :=
  match a, b with
  | VBool false, _ | _, VBool false => VBool false
  | VBool true, VBool true => VBool true
  | _, _ => VNull
  end.

Definition sql_or (a b : value) : value :=
  match a, b with
  | VBool true, _ | _, VBool true => VBool true
  | VBool false, VBool false => VBool false
  | _, _ => VNull
  end.

(** A WHERE clause or a policy keeps a row only when it evaluates to true. *)
Definition is_true (v : value) : bool :=
  match v with VBool true => true | _ => false end.

(** ** Catalog: policies and functions, built by the migrations *)

Inductive command := Select | Insert | Update.
Inductive role := authenticated | anon.
Inductive clause := Using | WithCheck.

#[global] Instance command_eq_dec : EqDecision command.
Proof. solve_decision. Defined.
#[global] Instance role_eq_dec : EqDecision role.
Proof. solve_decision. Defined.

Record policy := mkPolicy {
  pol_name : string;
  pol_table : table;
  pol_cmd : command;              (* FOR SELECT | INSERT | UPDATE *)
  pol_to : role;                  (* TO authenticated *)
  pol_using : option expr;        (* USING (...) *)
  pol_with_check : option expr    (* WITH CHECK (...) *)
}.

Record function := mkFunction {
  fn_name : string;
  fn_body : expr;                 (* RETURN <expr>; *)
  fn_security_definer : bool
}.

Record catalog := mkCatalog {
  cat_rls : list table;           (* tables with row level security enabled *)
  cat_policies : list policy;
  cat_functions : list function
}.

Definition empty_catalog : catalog := mkCatalog [] [] [].

Definition rls_enabled (cat : catalog) (t : table) : bool :=
  bool_decide (t ∈ cat_rls cat).

Definition same_policy (n : string) (t : table) (p : policy) : bool :=
  bool_decide (pol_name p = n) && bool_decide (pol_table p = t).

Definition find_function (cat : catalog) (f : string) : option function :=
  List.find (fun fd => bool_decide (fn_name fd = f)) (cat_functions cat).

Inductive stmt :=
  | EnableRowLevelSecurity (t : table)
  | CreatePolicy (p : policy)
  | DropPolicyIfExists (n : string) (t : table)
  | CreateOrReplaceFunction (f : function).

(** CREATE POLICY fails when the table already has a policy of that name. *)
Definition exec_stmt (cat : catalog) (s : stmt) : option catalog :=
  match s with
  | EnableRowLevelSecurity t =>
      Some (mkCatalog (t :: cat_rls cat) (cat_policies cat) (cat_functions cat))
  | CreatePolicy p =>
      if existsb (same_policy (pol_name p) (pol_table p)) (cat_policies cat)
      then None
      else Some (mkCatalog (cat_rls cat) (cat_policies cat ++ [p]) (cat_functions cat))
  | DropPolicyIfExists n t =>
      Some (mkCatalog (cat_rls cat)
              (List.filter (fun p => negb (same_policy n t p)) (cat_policies cat))
              (cat_functions cat))
  | CreateOrReplaceFunction f =>
      Some (mkCatalog (cat_rls cat) (cat_policies cat)
              (f :: List.filter (fun g => negb (bool_decide (fn_name g = fn_name f)))
                      (cat_functions cat)))
  end.

Fixpoint run_migration (cat : catalog) (m : list stmt) : option catalog :=
  match m with
  | [] => Some cat
  | s :: m' => match exec_stmt cat s with
               | Some cat' => run_migration cat' m'
               | None => None
               end
  end.

Fixpoint run_migrations (cat : catalog) (ms : list (list stmt)) : option catalog :=
  match ms with
  | [] => Some cat
  | m :: ms' => match run_migration cat m with
                | Some cat' => run_migrations cat' ms'
                | None => None
                end
  end.

(** *** The expressions of the migrations *)

(** EXISTS (SELECT 1 FROM profiles WHERE id = auth.uid() AND is_admin = true) *)
Definition exists_admin_profile : expr :=
  Exists profiles (And (Eq (Col col_id) AuthUid) (Eq (Col col_is_admin) (BoolLit true))).

(** (SELECT is_admin FROM profiles WHERE id = auth.uid()) *)
Definition select_is_admin : expr :=
  Subselect col_is_admin profiles (Eq (Col col_id) AuthUid).

(** 20250225152712_billowing_paper.sql *)
Definition billowing_paper : list stmt :=
  [ EnableRowLevelSecurity profiles;
    EnableRowLevelSecurity content_items;
    CreatePolicy (mkPolicy "Users can read their own profile" profiles Select authenticated
                    (Some (Eq AuthUid (Col col_id))) None);
    CreatePolicy (mkPolicy "Admin users can read all profiles" profiles Select authenticated
                    (Some exists_admin_profile) None);
    CreatePolicy (mkPolicy "Users can read assigned content" content_items Select authenticated
                    (Some (Or (Eq (Col col_assigned_to) AuthUid) exists_admin_profile)) None);
    CreatePolicy (mkPolicy "Admin users can create content" content_items Insert authenticated
                    None (Some exists_admin_profile));
    CreatePolicy (mkPolicy "Admin users can update content" content_items Update authenticated
                    (Some exists_admin_profile) None) ].

(** 20250225153213_violet_dream.sql *)
Definition violet_dream : list stmt :=
  [ DropPolicyIfExists "Users can read their own profile" profiles;
    DropPolicyIfExists "Admin users can read all profiles" profiles;
    DropPolicyIfExists "Users can read assigned content" content_items;
    DropPolicyIfExists "Admin users can create content" content_items;
    DropPolicyIfExists "Admin users can update content" content_items;
    CreatePolicy (mkPolicy "Users can read own profile" profiles Select authenticated
                    (Some (Or (Eq (Col col_id) AuthUid) select_is_admin)) None);
    CreatePolicy (mkPolicy "Users can read assigned content" content_items Select authenticated
                    (Some (Or (Eq (Col col_assigned_to) AuthUid) select_is_admin)) None);
    CreatePolicy (mkPolicy "Admin users can create content" content_items Insert authenticated
                    None (Some select_is_admin));
    CreatePolicy (mkPolicy "Users can update assigned content" content_items Update authenticated
                    (Some (Or (Eq (Col col_assigned_to) AuthUid) select_is_admin)) None) ].

(** CREATE OR REPLACE FUNCTION is_admin() ... SECURITY DEFINER *)
Definition is_admin : function :=
  mkFunction "is_admin" exists_admin_profile true.

(** 20250225153235_tight_boat.sql *)
Definition tight_boat : list stmt :=
  [ CreateOrReplaceFunction is_admin;
    DropPolicyIfExists "Users can read own profile" profiles;
    DropPolicyIfExists "Users can read assigned content" content_items;
    DropPolicyIfExists "Admin users can create content" content_items;
    DropPolicyIfExists "Users can update assigned content" content_items;
    CreatePolicy (mkPolicy "Allow users to read own profile" profiles Select authenticated
                    (Some (Eq (Col col_id) AuthUid)) None);
    CreatePolicy (mkPolicy "Allow admins to read all profiles" profiles Select authenticated
                    (Some (Call "is_admin")) None);
    CreatePolicy (mkPolicy "Allow users to read assigned content" content_items Select authenticated
                    (Some (Or (Eq (Col col_assigned_to) AuthUid) (Call "is_admin"))) None);
    CreatePolicy (mkPolicy "Allow admins to create content" content_items Insert authenticated
                    None (Some (Call "is_admin")));
    CreatePolicy (mkPolicy "Allow content management" content_items Update authenticated
                    (Some (Or (Eq (Col col_assigned_to) AuthUid) (Call "is_admin"))) None) ].

(** The rejection-notes migration (adds [rejection_notes], [rejected_at]). *)
Definition rejection_notes_migration : list stmt :=
  [ CreatePolicy (mkPolicy "Users can update rejection notes on assigned content"
                    content_items Update authenticated
                    (Some (Eq AuthUid (Col col_assigned_to)))
                    (Some (Eq AuthUid (Col col_assigned_to)))) ].

Definition migrations : list (list stmt) :=
  [ billowing_paper; violet_dream; tight_boat; rejection_notes_migration ].

(** The catalog after the first migration only, and after all of them. *)
Definition initial_catalog : catalog :=
  default empty_catalog (run_migrations empty_catalog [billowing_paper]).

Definition final_catalog : catalog :=
  default empty_catalog (run_migrations empty_catalog migrations).

(** ** Evaluation of policy expressions

    Evaluation records what it does: every scan of a table (and whether the
    row policies of that table were applied to it), every policy evaluated on
    a row, every function called.  A query run by the [authenticated] role
    applies the SELECT policies of every table it reads, including the
    tables read by subqueries inside a policy, which is where a policy on
    [profiles] that reads [profiles] recurses.  The body of a SECURITY
    DEFINER function runs as the role that created it, the owner of the
    tables of these migrations, to which row security does not apply. *)

Inductive event :=
  | Scan (t : table) (rls : bool)
  | PolicyEval (t : table) (name : string)
  | FnCall (name : string).

(** [Diverge]: the nesting of policy and function evaluations exceeded the
    fuel. *)
Inductive outcome (A : Type) :=
  | Ok (a : A) (tr : list event)
  | SqlError
  | Diverge.
Arguments Ok {A} a tr.
Arguments SqlError {A}.
Arguments Diverge {A}.

Definition ret {A} (a : A) : outcome A := Ok a [].

Definition bind {A B} (m : outcome A) (k : A -> outcome B) : outcome B :=
  match m with
  | Ok a tr => match k a with
               | Ok b tr' => Ok b (tr ++ tr')
               | SqlError => SqlError
               | Diverge => Diverge
               end
  | SqlError => SqlError
  | Diverge => Diverge
  end.

Definition tell (e : event) : outcome unit := Ok tt [e].

Notation "'let*' x ':=' m 'in' k" := (bind m (fun x => k))
  (at level 10, x pattern, m at level 100, k at level 200).

Fixpoint mapM {A B} (f : A -> outcome B) (l : list A) : outcome (list B) :=
  match l with
  | [] => ret []
  | a :: l' => let* b := f a in let* bs := mapM f l' in ret (b :: bs)
  end.

Fixpoint filterM {A} (f : A -> outcome bool) (l : list A) : outcome (list A) :=
  match l with
  | [] => ret []
  | a :: l' => let* b := f a in let* r := filterM f l' in ret (if b then a :: r else r)
  end.

Definition clause_expr (k : clause) (p : policy) : option expr :=
  match k with
  | Using => pol_using p
  | WithCheck => match pol_with_check p with
                 | Some e => Some e
                 | None => pol_using p   (* WITH CHECK defaults to USING *)
                 end
  end.

(** The expressions of the policies of table [t] for command [c] that apply
    to the [authenticated] role, with the policy they come from. *)
Definition applicable (cat : catalog) (t : table) (c : command) (k : clause)
  : list (string * expr) :=
  omap (fun p =>
          if bool_decide (pol_table p = t) && bool_decide (pol_cmd p = c)
             && bool_decide (pol_to p = authenticated)
          then (fun e => (pol_name p, e)) <$> clause_expr k p
          else None)
       (cat_policies cat).

Section Eval.
Context (cat : catalog) (db : database) (uid : uuid).

Section Level.
(** The evaluator used for the expressions that are not part of the
    expression at hand: policies of scanned tables, function bodies. *)
Variable rec : bool -> tuple -> expr -> outcome value.

(** Permissive policies are combined with OR; with no applicable policy
    the row is denied. *)
Definition policies_pass (t : table) (c : command) (k : clause) (r : tuple)
  : outcome bool :=
  let* vs := mapM (fun ne => let* _ := tell (PolicyEval t ne.1) in rec false r ne.2)
             (applicable cat t c k) in
  ret (existsb is_true vs).

Definition scan (bypass : bool) (t : table) : outcome (list tuple) :=
  if bypass || negb (rls_enabled cat t)
  then let* _ := tell (Scan t false) in ret (rows db t)
  else let* _ := tell (Scan t true) in filterM (policies_pass t Select Using) (rows db t).

Fixpoint eval_expr (bypass : bool) (r : tuple) (e : expr) : outcome value :=
  match e with
  | Col c => ret (r c)
  | AuthUid => ret (VUuid uid)
  | BoolLit b => ret (VBool b)
  | Eq a b => let* x := eval_expr bypass r a in let* y := eval_expr bypass r b in ret (sql_eq x y)
  | And a b => let* x := eval_expr bypass r a in let* y := eval_expr bypass r b in ret (sql_and x y)
  | Or a b => let* x := eval_expr bypass r a in let* y := eval_expr bypass r b in ret (sql_or x y)
  | Exists t w =>
      let* rs := scan bypass t in
      let* vs := mapM (fun r' => eval_expr bypass r' w) rs in
      ret (VBool (existsb is_true vs))
  | Subselect c t w =>
      let* rs := scan bypass t in
      let* ms := filterM (fun r' => let* v := eval_expr bypass r' w in ret (is_true v)) rs in
      match ms with
      | [] => ret VNull
      | [r'] => ret (r' c)
      | _ => SqlError   (* more than one row returned by a subquery *)
      end
  | Call f =>
      match find_function cat f with
      | Some fd =>
          let* _ := tell (FnCall f) in
          rec (fn_security_definer fd || bypass) no_tuple (fn_body fd)
      | None => SqlError
      end
  end.
End Level.

Fixpoint eval (fuel : nat) : bool -> tuple -> expr -> outcome value :=
  match fuel with
  | O => fun _ _ _ => Diverge
  | S n => eval_expr (eval n)
  end.

(** Row security for a statement of the [authenticated] principal [uid]:
    without ENABLE ROW LEVEL SECURITY every row passes. *)
Definition check_row (fuel : nat) (t : table) (c : command) (k : clause) (r : tuple)
  : outcome bool :=
  if rls_enabled cat t then policies_pass (eval fuel) t c k r else ret true.
End Eval.

(** ** Requests of an authenticated principal under row security *)

(** The principal's profile row exists and has [is_admin = true]. *)
Definition admin_flag (db : database) (uid : uuid) : bool :=
  match db_profiles db !! uid with
  | Some p => bool_decide (Profile.is_admin p = Some true)
  | None => false
  end.

Definition can_read_profile (cat : catalog) (db : database) (uid : uuid) (fuel : nat)
    (q : uuid * Profile.t) : outcome bool :=
  check_row cat db uid fuel profiles Select Using (profile_tuple q).

Definition can_read_content (cat : catalog) (db : database) (uid : uuid) (fuel : nat)
    (c : uuid * ContentItem.t) : outcome bool :=
  check_row cat db uid fuel content_items Select Using (content_tuple c).

Definition can_insert_content (cat : catalog) (db : database) (uid : uuid) (fuel : nat)
    (c : uuid * ContentItem.t) : outcome bool :=
  check_row cat db uid fuel content_items Insert WithCheck (content_tuple c).

(** UPDATE: the existing row must pass the USING clauses, the new row the
    WITH CHECK clauses. *)
Definition can_update_content (cat : catalog) (db : database) (uid : uuid) (fuel : nat)
    (c : uuid * ContentItem.t) : outcome bool :=
  check_row cat db uid fuel content_items Update Using (content_tuple c).

Definition can_store_updated_content (cat : catalog) (db : database) (uid : uuid)
    (fuel : nat) (c : uuid * ContentItem.t) : outcome bool :=
  check_row cat db uid fuel content_items Update WithCheck (content_tuple c).

(** The value of an outcome, when there is one. *)
Definition result {A} (o : outcome A) : option A :=
  match o with Ok a _ => Some a | _ => None end.

Definition has_admin_profile (db : database) (uid : uuid) : Prop :=
  exists p, db_profiles db !! uid = Some p /\ Profile.is_admin p = Some true.

(** The policies in force once every migration has run. *)
Definition final_policies : list policy :=
  [ mkPolicy "Allow users to read own profile" profiles Select authenticated
      (Some (Eq (Col col_id) AuthUid)) None;
    mkPolicy "Allow admins to read all profiles" profiles Select authenticated
      (Some (Call "is_admin")) None;
    mkPolicy "Allow users to read assigned content" content_items Select authenticated
      (Some (Or (Eq (Col col_assigned_to) AuthUid) (Call "is_admin"))) None;
    mkPolicy "Allow admins to create content" content_items Insert authenticated
      None (Some (Call "is_admin"));
    mkPolicy "Allow content management" content_items Update authenticated
      (Some (Or (Eq (Col col_assigned_to) AuthUid) (Call "is_admin"))) None;
    mkPolicy "Users can update rejection notes on assigned content"
      content_items Update authenticated
      (Some (Eq AuthUid (Col col_assigned_to)))
      (Some (Eq AuthUid (Col col_assigned_to))) ].

(** The final catalog without the generic update policy: what the
    rejection-notes policy grants on its own. *)
Definition only_rejection_rule : catalog :=
  default empty_catalog
    (exec_stmt final_catalog (DropPolicyIfExists "Allow content management" content_items)).

(** [assigned_to = auth.uid()] on one row. *)
Definition assigned_to_uid (uid : uuid) (r : tuple) : bool :=
  is_true (sql_eq (r col_assigned_to) (VUuid uid)).

(** The WHERE clause of [is_admin()] on one row. *)
Definition admin_where (uid : uuid) (r : tuple) : value :=
  sql_and (sql_eq (r col_id) (VUuid uid)) (sql_eq (r col_is_admin) (VBool true)).

(** ** Statements on [content_items] *)

Inductive db_error :=
  | RlsViolation          (* new row violates row-level security policy *)
  | NotNullViolation
  | CheckViolation
  | UniqueViolation
  | ForeignKeyViolation
  | InvalidInput          (* a value that is not of the column's type *)
  | UndefinedColumn       (* a key of the request body that names no column *)
  | StatementFailed.      (* the policy expressions raised an error *)

(** The body of an insert request, a JSON object.  A key is absent, and
    the column takes its DEFAULT; or its value is null ([None]); or it has
    another value, which the server reads from its text with the input
    function of the column's type. *)
Definition content_insert := gmap string (option text).

(** The columns of [content_items]: those of CREATE TABLE and the two that
    the rejection-notes migration adds. *)
Definition content_items_columns : list string :=
  ["id"; "caption"; "content_type"; "media_url"; "status"; "schedule_date";
   "created_by"; "assigned_to"; "created_at"; "updated_at";
   "rejection_notes"; "rejected_at"].

(** The row an insert proposes, before row security and the constraints:
    every column can still be NULL, and [content_type] and [status] are
    any text. *)
Record new_content_item := mkNew {
  n_id : option uuid;
  n_caption : option text;
  n_content_type : option text;
  n_media_url : option text;
  n_status : option text;
  n_schedule_date : option timestamptz;
  n_created_by : option uuid;
  n_assigned_to : option uuid;
  n_created_at : option timestamptz;
  n_updated_at : option timestamptz;
  n_rejection_notes : option text;
  n_rejected_at : option timestamptz
}.

(** The value of a [text] column in the new row, from the value [v] of its
    key in the body and its DEFAULT. *)
Definition column_text (v : option (option text)) (dflt : option text) : option text :=
  match v with
  | None => dflt
  | Some x => x
  end.

(** The same for a column of another type, whose input function is [input]. *)
Definition column_value {A} (input : text -> option A) (v : option (option text))
    (dflt : option A) : db_error + option A :=
  match v with
  | None => inr dflt
  | Some None => inr None
  | Some (Some s) => match input s with
                     | Some a => inr (Some a)
                     | None => inl InvalidInput
                     end
  end.

(** The columns an update request of the application sets ([status];
    [rejection_notes] and [rejected_at]) and [assigned_to], the column the
    policies read.  [None]: the column keeps its value. *)
Record content_patch := mkPatch {
  upd_status : option status_t;
  upd_rejection_notes : option text;
  upd_rejected_at : option timestamptz;
  upd_assigned_to : option uuid
}.

Definition apply_patch (p : content_patch) (c : ContentItem.t) : ContentItem.t :=
  ContentItem.mk
    (ContentItem.caption c) (ContentItem.content_type c)
    (ContentItem.media_url c)
    (match upd_status p with Some s => Some s | None => ContentItem.status c end)
    (ContentItem.schedule_date c) (ContentItem.created_by c)
    (match upd_assigned_to p with Some u => Some u | None => ContentItem.assigned_to c end)
    (ContentItem.created_at c) (ContentItem.updated_at c)
    (match upd_rejection_notes p with Some n => Some n | None => ContentItem.rejection_notes c end)
    (match upd_rejected_at p with Some t => Some t | None => ContentItem.rejected_at c end).

(** REFERENCES profiles(id) *)
Definition references_profile (db : database) (u : option uuid) : bool :=
  match u with
  | Some k => bool_decide (is_Some (db_profiles db !! k))
  | None => true
  end.

Definition required {A} (o : option A) : db_error + A :=
  match o with Some a => inr a | None => inl NotNullViolation end.

Definition run_check (o : outcome bool) : db_error + unit :=
  match o with
  | Ok true _ => inr tt
  | Ok false _ => inl RlsViolation
  | _ => inl StatementFailed
  end.

Definition and_then {A B} (m : db_error + A) (k : A -> db_error + B) : db_error + B :=
  match m with inl e => inl e | inr a => k a end.

Notation "'try' x ':=' m 'in' k" := (and_then m (fun x => k))
  (at level 10, x pattern, m at level 100, k at level 200).

(** The constraints of [content_items] on a row that passed row security,
    and the row stored: NOT NULL, the two CHECKs (which a NULL passes), the
    primary key, the foreign keys. *)
Definition store_content_item (db : database) (r : new_content_item)
  : db_error + database :=
  try id := required (n_id r) in
  try caption := required (n_caption r) in
  try ctype_text := required (n_content_type r) in
  try media_url := required (n_media_url r) in
  try ctype := match parse_content_type ctype_text with
               | Some t => inr t
               | None => inl CheckViolation
               end in
  try status := match n_status r with
                | None => inr None
                | Some s => match parse_status s with
                            | Some st => inr (Some st)
                            | None => inl CheckViolation
                            end
                end in
  if bool_decide (is_Some (db_content_items db !! id)) then inl UniqueViolation
  else if negb (references_profile db (n_created_by r)
                && references_profile db (n_assigned_to r))
  then inl ForeignKeyViolation
  else
    inr (mkDb (db_profiles db)
           (<[id := ContentItem.mk caption ctype media_url status
                      (n_schedule_date r) (n_created_by r) (n_assigned_to r)
                      (n_created_at r) (n_updated_at r)
                      (n_rejection_notes r) (n_rejected_at r)]>
              (db_content_items db))).

(** The new row of an insert as the policies see it. *)
Definition insert_tuple (r : new_content_item) : tuple :=
  fun c => match c with
           | col_id => from_option VUuid VNull (n_id r)
           | col_is_admin => VNull
           | col_assigned_to => from_option VUuid VNull (n_assigned_to r)
           end.

Section Statements.
(** The input functions of [timestamptz] and [uuid], which read the strings
    the client sends. *)
Variable timestamptz_in : text -> option timestamptz.
Variable uuid_in : text -> option uuid.

(** The row that the body [i] proposes; [new_id] is the value of
    gen_random_uuid(), [now] that of now(), 'Pending' the DEFAULT of
    [status].  A key that names no column fails the statement before any
    value is read. *)
Definition new_row (new_id : uuid) (now : timestamptz) (i : content_insert)
  : db_error + new_content_item :=
  if bool_decide (map_Forall (fun k _ => k ∈ content_items_columns) i) then
    try id := column_value uuid_in (i !! "id") (Some new_id) in
    try schedule_date := column_value timestamptz_in (i !! "schedule_date") None in
    try created_by := column_value uuid_in (i !! "created_by") None in
    try assigned_to := column_value uuid_in (i !! "assigned_to") None in
    try created_at := column_value timestamptz_in (i !! "created_at") (Some now) in
    try updated_at := column_value timestamptz_in (i !! "updated_at") (Some now) in
    try rejected_at := column_value timestamptz_in (i !! "rejected_at") None in
    inr (mkNew id
           (column_text (i !! "caption") None)
           (column_text (i !! "content_type") None)
           (column_text (i !! "media_url") None)
           (column_text (i !! "status") (Some (lit "Pending")))
           schedule_date created_by assigned_to created_at updated_at
           (column_text (i !! "rejection_notes") None)
           rejected_at)
  else inl UndefinedColumn.

Context (cat : catalog) (fuel : nat).

(** INSERT INTO content_items by the authenticated principal [uid].
    The row-security WITH CHECK runs before the constraints. *)
Definition insert_content_item (db : database) (uid : uuid) (new_id : uuid)
    (now : timestamptz) (i : content_insert) : db_error + database :=
  try r := new_row new_id now i in
  try _ := run_check (check_row cat db uid fuel content_items Insert WithCheck
                        (insert_tuple r)) in
  store_content_item db r.

(** UPDATE content_items SET ... WHERE id = [id] by the authenticated
    principal [uid].  A row the principal cannot select or that fails the
    USING clauses is not a target and nothing happens; a new row that
    fails the WITH CHECK clauses is an error. *)
Definition update_content_item (db : database) (uid : uuid) (id : uuid)
    (p : content_patch) : db_error + database :=
  match db_content_items db !! id with
  | None => inr db
  | Some c =>
      match can_read_content cat db uid fuel (id, c),
            can_update_content cat db uid fuel (id, c) with
      | Ok true _, Ok true _ =>
          let c' := apply_patch p c in
          try _ := run_check (can_store_updated_content cat db uid fuel (id, c')) in
          if bool_decide (ContentItem.assigned_to c' = ContentItem.assigned_to c)
             || references_profile db (ContentItem.assigned_to c')
          then inr (mkDb (db_profiles db) (<[id := c']> (db_content_items db)))
          else inl ForeignKeyViolation
      | Ok _ _, Ok _ _ => inr db
      | _, _ => inl StatementFailed
      end
  end.
End Statements.

(** ** The trigger on auth.users
    (20250225152712_billowing_paper.sql, handle_new_user) *)

(** The columns of the new [auth.users] row the trigger reads;
    [raw_user_meta_data] is a JSON object with string values. *)
Record auth_user := mkUser {
  au_id : uuid;
  au_email : option text;
  au_raw_user_meta_data : gmap string text
}.

Definition bootstrap_email : text := lit "geral@stagelink.pt".

(** INSERT INTO public.profiles (id, email, full_name, is_admin) VALUES (...),
    as the owner of the table (SECURITY DEFINER): constraints apply, row
    security does not. *)
Definition insert_profile (db : database) (id : uuid) (email : option text)
    (full_name : option text) (admin : option bool) (now : timestamptz)
  : db_error + database :=
  try e := required email in
  if bool_decide (is_Some (db_profiles db !! id)) then inl UniqueViolation
  else if existsb (fun kp => bool_decide (Profile.email kp.2 = e))
            (map_to_list (db_profiles db))
  then inl UniqueViolation
  else inr (mkDb (<[id := Profile.mk e full_name admin (Some now) (Some now)]>
                    (db_profiles db))
                 (db_content_items db)).

(** [new.email = 'geral@stagelink.pt'] *)
Definition email_is_bootstrap (email : option text) : option bool :=
  (fun e => bool_decide (e = bootstrap_email)) <$> email.

(** AFTER INSERT ON auth.users FOR EACH ROW: an error of the trigger aborts
    the insert of the user. *)
Definition handle_new_user (db : database) (new : auth_user) (now : timestamptz)
  : db_error + database :=
  insert_profile db (au_id new) (au_email new)
    (au_raw_user_meta_data new !! "full_name"%string)
    (email_is_bootstrap (au_email new)) now.

(** ** The client (Dashboard.tsx, AdminDashboard.tsx) *)

(** A JavaScript [Date]: [None] is Invalid Date. *)
Definition Date := option Z.

Definition ms_per_day : Z := 86400000.

(** date-fns [isBefore]: a comparison of the time values, false when either
    is NaN. *)
Definition isBefore (date dateToCompare : Date) : bool :=
  match date, dateToCompare with
  | Some a, Some b => a <? b
  | _, _ => false
  end.

(** White space and line terminators of ECMAScript, as code units. *)
Definition js_whitespace (c : N) : bool :=
  bool_decide (c ∈ [9; 10; 11; 12; 13; 32; 160; 5760; 8232; 8233; 8239; 8287;
                    12288; 65279]%N)
  || ((8192 <=? c) && (c <=? 8202))%N.

Fixpoint trimStart (s : text) : text :=
  match s with
  | c :: s' => if js_whitespace c then trimStart s' else s
  | [] => []
  end.

(** String.prototype.trim *)
Definition trim (s : text) : text := rev (trimStart (rev (trimStart s))).

(** [!s] for a string [s]. *)
Definition falsy (s : text) : bool := bool_decide (s = []).

(** The TypeScript type [ContentItem] of Dashboard.tsx, as returned by the
    content query. *)
Module Item.
Record t := mk {
  id : text;
  title : text;
  caption : text;
  content_type : text;
  media_url : text;
  status : text;
  schedule_date : text;
  rejection_notes : option text;
  rejected_at : option text;
  assigned_to_profile : option (text * text)   (* email, full_name *)
}.
End Item.

Inductive ViewMode := view_list | view_type | view_calendar | view_archive.

#[global] Instance ViewMode_eq_dec : EqDecision ViewMode.
Proof. solve_decision. Defined.

Record FormData := mkFormData {
  fd_title : text;
  fd_caption : text;
  fd_content_type : text;
  fd_media_url : text;
  fd_schedule_date : text;
  fd_assigned_to : text
}.

(** The state of the [Dashboard] component; [profile] is the profile row of
    useAuth(), [None] while there is none. *)
Record Dashboard := mkDashboard {
  viewMode : ViewMode;
  selectedType : text;
  selectedStatus : text;
  selectedClient : text;
  showForm : bool;
  rejectionNotes : text;
  rejectingItemId : option text;
  formData : FormData;
  profile : option (uuid * Profile.t)
}.

(** const isAdmin = profile?.email === 'geral@stagelink.pt'; *)
Definition isAdmin (profile : option (uuid * Profile.t)) : bool :=
  match profile with
  | Some kp => bool_decide (Profile.email kp.2 = lit "geral@stagelink.pt")
  | None => false
  end.

(** The content query of the dashboard adds [.eq('assigned_to', profile.id)]
    when [!isAdmin]; the result is the filter, if any ([None] also without a
    profile, when the query is not sent at all). *)
Definition content_query_filter (profile : option (uuid * Profile.t)) : option uuid :=
  match profile with
  | Some kp => if isAdmin profile then None else Some kp.1
  | None => None
  end.

(** The "Add Content" button: [viewMode !== 'archive' && isAdmin]. *)
Definition showAddContent (st : Dashboard) : bool :=
  negb (bool_decide (viewMode st = view_archive)) && isAdmin (profile st).

(** What AdminDashboard renders. *)
Inductive AdminView := AccessDenied | AdminPage.

(** if (profile?.email !== 'geral@stagelink.pt') return <Access Denied> *)
Definition AdminDashboard (profile : option (uuid * Profile.t)) : AdminView :=
  if negb (bool_decide ((fun kp => Profile.email kp.2) <$> profile
                        = Some (lit "geral@stagelink.pt")))
  then AccessDenied
  else AdminPage.

Record Partition := mkPartition {
  currentContent : list Item.t;
  archivedContent : list Item.t
}.

Section Dates.
(** date-fns [parseISO], and the offset of local time from UTC in
    milliseconds. *)
Variable parseISO : text -> Date.
Variable utc_offset : Z.

(** date-fns [startOfDay]: the instant of local midnight of that day. *)
Definition startOfDay (d : Date) : Date :=
  (fun t => t - (t + utc_offset) mod ms_per_day) <$> d.

(** const today = startOfDay(new Date()); *)
Definition today (now : timestamptz) : Date := startOfDay (Some now).

Definition is_archived (now : timestamptz) (item : Item.t) : bool :=
  isBefore (startOfDay (parseISO (Item.schedule_date item))) (today now).

(** The callback of [contentItems.reduce]. *)
Definition partition_step (now : timestamptz) (acc : Partition) (item : Item.t)
  : Partition :=
  let itemDate := startOfDay (parseISO (Item.schedule_date item)) in
  if isBefore itemDate (today now)
  then mkPartition (currentContent acc) (archivedContent acc ++ [item])
  else mkPartition (currentContent acc ++ [item]) (archivedContent acc).

Definition partition_content (now : timestamptz) (contentItems : list Item.t)
  : Partition :=
  fold_left (partition_step now) contentItems (mkPartition [] []).

Definition matches (selected : text) (v : option text) : bool :=
  bool_decide (selected = lit "all") || bool_decide (v = Some selected).

(** const filteredItems = contentItems.filter(item => ...) *)
Definition filteredItems (st : Dashboard) (now : timestamptz)
    (contentItems : list Item.t) : list Item.t :=
  List.filter
    (fun item =>
       match viewMode st with
       | view_calendar => true
       | view_archive =>
           isBefore (startOfDay (parseISO (Item.schedule_date item))) (today now)
       | view_list =>
           let isCurrentContent :=
             negb (isBefore (startOfDay (parseISO (Item.schedule_date item))) (today now)) in
           let isPendingOrRejected :=
             bool_decide (Item.status item = lit "Pending")
             || bool_decide (Item.status item = lit "Rejected") in
           let matchesType := matches (selectedType st) (Some (Item.content_type item)) in
           let matchesClient :=
             matches (selectedClient st) (fst <$> Item.assigned_to_profile item) in
           isCurrentContent && isPendingOrRejected && matchesType && matchesClient
       | view_type =>
           let isCurrentContent :=
             negb (isBefore (startOfDay (parseISO (Item.schedule_date item))) (today now)) in
           let matchesType := matches (selectedType st) (Some (Item.content_type item)) in
           let matchesStatus := matches (selectedStatus st) (Some (Item.status item)) in
           let matchesClient :=
             matches (selectedClient st) (fst <$> Item.assigned_to_profile item) in
           isCurrentContent && matchesType && matchesStatus && matchesClient
       end)
    contentItems.
End Dates.

(** *** Handlers *)

(** What the client sends to the database through supabase-js. *)
Inductive request :=
  | ReqInsert (i : content_insert)              (* .from('content_items').insert(i) *)
  | ReqUpdate (id : uuid) (p : content_patch).  (* .update(p).eq('id', id) *)

(** The component state, the database it talks to, and the requests and
    alerts it has issued so far. *)
Record world := mkWorld {
  w_ui : Dashboard;
  w_db : database;
  w_requests : list request;
  w_alerts : list string
}.

Definition set_form (st : Dashboard) (show : bool) (fd : FormData) : Dashboard :=
  mkDashboard (viewMode st) (selectedType st) (selectedStatus st) (selectedClient st)
    show (rejectionNotes st) (rejectingItemId st) fd (profile st).

Definition set_rejecting (st : Dashboard) (id : option text) (notes : text) : Dashboard :=
  mkDashboard (viewMode st) (selectedType st) (selectedStatus st) (selectedClient st)
    (showForm st) notes id (formData st) (profile st).

(** [created_by: profile?.id] added to the object [o]: JSON leaves out a
    key whose value is undefined. *)
Definition with_created_by (profile : option (uuid * Profile.t)) (o : content_insert)
  : content_insert :=
  match profile with
  | Some kp => <["created_by" := Some kp.1]> o
  | None => o
  end.

(** { ...formData, created_by: profile?.id, status: 'Pending' } *)
Definition submit_payload (st : Dashboard) : content_insert :=
  let fd := formData st in
  <["status" := Some (lit "Pending")]>
    (with_created_by (profile st)
       (<["title" := Some (fd_title fd)]>
       (<["caption" := Some (fd_caption fd)]>
       (<["content_type" := Some (fd_content_type fd)]>
       (<["media_url" := Some (fd_media_url fd)]>
       (<["schedule_date" := Some (fd_schedule_date fd)]>
       (<["assigned_to" := Some (fd_assigned_to fd)]> ∅))))))).

(** { status: 'Rejected', rejection_notes: rejectionNotes,
      rejected_at: new Date().toISOString() } *)
Definition reject_patch (notes : text) (now : timestamptz) : content_patch :=
  mkPatch (Some Rejected) (Some notes) (Some now) None.

(** { status } *)
Definition status_patch (s : status_t) : content_patch :=
  mkPatch (Some s) None None None.

Section Handlers.
Variable timestamptz_in : text -> option timestamptz.
Variable uuid_in : text -> option uuid.
(** format(new Date(), 'yyyy-MM-dd') *)
Variable format_date : timestamptz -> text.
Context (cat : catalog) (fuel : nat).
(** The principal of the session. *)
Variable uid : uuid.

Definition empty_form (now : timestamptz) : FormData :=
  mkFormData [] [] (lit "Post") [] (format_date now) [].

Definition handleSubmit (w : world) (new_id : uuid) (now : timestamptz) : world :=
  let st := w_ui w in
  if falsy (fd_assigned_to (formData st))
  then mkWorld st (w_db w) (w_requests w)
         (w_alerts w ++ ["Please select a user to assign the content to"%string])
  else
    let i := submit_payload st in
    match insert_content_item timestamptz_in uuid_in cat fuel (w_db w) uid new_id now i with
    | inr db' =>
        mkWorld (set_form st false (empty_form now)) db'
          (w_requests w ++ [ReqInsert i]) (w_alerts w)
    | inl _ => mkWorld st (w_db w) (w_requests w ++ [ReqInsert i]) (w_alerts w)
    end.

Definition handleStatusUpdate (w : world) (id : text) (status : status_t) : world :=
  let st := w_ui w in
  if bool_decide (status = Rejected)
  then mkWorld (set_rejecting st (Some id) []) (w_db w) (w_requests w) (w_alerts w)
  else
    let p := status_patch status in
    match update_content_item cat fuel (w_db w) uid id p with
    | inr db' => mkWorld st db' (w_requests w ++ [ReqUpdate id p]) (w_alerts w)
    | inl _ => mkWorld st (w_db w) (w_requests w ++ [ReqUpdate id p]) (w_alerts w)
    end.

(** if (!rejectingItemId || !rejectionNotes.trim()) return; *)
Definition handleReject (w : world) (now : timestamptz) : world :=
  let st := w_ui w in
  match rejectingItemId st with
  | None => w
  | Some id =>
      if falsy id || falsy (trim (rejectionNotes st)) then w
      else
        let p := reject_patch (rejectionNotes st) now in
        match update_content_item cat fuel (w_db w) uid id p with
        | inr db' =>
            mkWorld (set_rejecting st None []) db'
              (w_requests w ++ [ReqUpdate id p]) (w_alerts w)
        | inl _ => mkWorld st (w_db w) (w_requests w ++ [ReqUpdate id p]) (w_alerts w)
        end
  end.
End Handlers.

(** Only white space (or nothing at all). *)
Definition blank (s : text) : Prop := Forall (fun c => js_whitespace c = true) s.

(** ** A small database for the examples *)

Definition ex_admin : uuid := lit "11111111-aaaa".
Definition ex_client : uuid := lit "22222222-bbbb".
Definition ex_other : uuid := lit "33333333-cccc".
Definition ex_item_id : uuid := lit "99999999-0001".
Definition ex_new_id : uuid := lit "99999999-0002".

Definition ex_profiles : gmap uuid Profile.t :=
  <[ex_admin := Profile.mk (lit "geral@stagelink.pt") (Some (lit "Stagelink"))
                  (Some true) (Some 0) (Some 0)]>
  (<[ex_client := Profile.mk (lit "client@example.com") (Some (lit "Client"))
                    (Some false) (Some 0) (Some 0)]>
  (<[ex_other := Profile.mk (lit "promoted@example.com") None
                   (Some true) (Some 0) (Some 0)]> ∅)).

Definition ex_item : ContentItem.t :=
  ContentItem.mk (lit "Caption") Reel (lit "https://drive.google.com/f")
    (Some Pending) (Some 1740441600000) (Some ex_admin) (Some ex_client)
    (Some 0) (Some 0) None None.

Definition ex_db : database := mkDb ex_profiles (<[ex_item_id := ex_item]> ∅).

(** 2025-02-25T00:00:00Z and the day before, in milliseconds. *)
Definition ex_today : timestamptz := 1740441600000.
Definition ex_yesterday : timestamptz := 1740355200000.

Definition ex_timestamptz_in (s : text) : option timestamptz :=
  if bool_decide (s = lit "2025-02-25") then Some ex_today
  else if bool_decide (s = lit "2025-02-24") then Some ex_yesterday
  else None.

Definition ex_parseISO (s : text) : Date := ex_timestamptz_in s.

Definition ex_format_date (t : timestamptz) : text :=
  if bool_decide (t < ex_today) then lit "2025-02-24" else lit "2025-02-25".

(** The input function of [uuid] in the examples: it reads the identifiers
    in use. *)
Definition ex_uuid_in (s : text) : option uuid :=
  if bool_decide (s ∈ [ex_admin; ex_client; ex_other; ex_item_id; ex_new_id])
  then Some s else None.

(** A request body with status 'Approved'. *)
Definition ex_insert_approved : content_insert :=
  <["caption" := Some (lit "Caption")]>
  (<["content_type" := Some (lit "Post")]>
  (<["media_url" := Some (lit "https://drive.google.com/g")]>
  (<["status" := Some (lit "Approved")]>
  (<["schedule_date" := Some (lit "2025-02-25")]>
  (<["created_by" := Some ex_admin]>
  (<["assigned_to" := Some ex_client]> ∅)))))).

(** The same body with status null. *)
Definition ex_insert_null_status : content_insert :=
  <["status" := None]> ex_insert_approved.

Definition ex_item_of (id : text) (date : text) : Item.t :=
  Item.mk id (lit "Title") (lit "Caption") (lit "Post") (lit "https://drive.google.com/g")
    (lit "Pending") date None None (Some (lit "client@example.com", lit "Client")).

Definition ex_dashboard (notes : text) (rejecting : option text) (who : uuid) : Dashboard :=
  mkDashboard view_list (lit "all") (lit "all") (lit "all") false notes rejecting
    (mkFormData (lit "Title") (lit "Caption") (lit "Post") (lit "https://drive.google.com/g")
       (lit "2025-02-25") ex_client)
    ((fun p => (who, p)) <$> ex_profiles !! who).

Definition ex_world (notes : text) (rejecting : option text) (who : uuid) : world :=
  mkWorld (ex_dashboard notes rejecting who) ex_db [] [].

(** The status of row [id] after a write, if the write went through. *)
Definition stored_status (r : db_error + database) (id : uuid) : option (option status_t) :=
  match r with
  | inr db' => ContentItem.status <$> db_content_items db' !! id
  | inl _ => None
  end.

(** ** The earlier catalogs, queries, archive groups, routes *)

(** The catalog after the second migration (20250225153213_violet_dream.sql). *)
Definition violet_catalog : catalog :=
  default empty_catalog (run_migrations empty_catalog [billowing_paper; violet_dream]).

(** *** Queries of the pages *)

(** SELECT * FROM profiles as the principal: the rows that pass row
    security. *)
Definition select_profiles (cat : catalog) (db : database) (uid : uuid) (fuel : nat)
  : outcome (list (uuid * Profile.t)) :=
  filterM (can_read_profile cat db uid fuel) (map_to_list (db_profiles db)).

(** supabase.from('profiles').select('*').eq('is_admin', false) *)
Definition select_non_admin_profiles (cat : catalog) (db : database) (uid : uuid)
    (fuel : nat) : outcome (list (uuid * Profile.t)) :=
  let* rs := select_profiles cat db uid fuel in
  ret (List.filter (fun kp => bool_decide (Profile.is_admin kp.2 = Some false)) rs).

(** const { data: profiles = [] } = useQuery({ ..., enabled: isAdmin }) of
    Dashboard.tsx: the list offered in "Assign To"; a failed query leaves
    the default. *)
Definition Dashboard_profiles (cat : catalog) (db : database) (uid : uuid) (fuel : nat)
    (profile : option (uuid * Profile.t)) : list (uuid * Profile.t) :=
  if isAdmin profile
  then default [] (result (select_non_admin_profiles cat db uid fuel))
  else [].

(** The same query in AdminDashboard.tsx, which is always enabled. *)
Definition AdminDashboard_profiles (cat : catalog) (db : database) (uid : uuid)
    (fuel : nat) : list (uuid * Profile.t) :=
  default [] (result (select_non_admin_profiles cat db uid fuel)).

(** A row of the content query:
    select('*, assigned_to_profile:profiles!content_items_assigned_to_fkey(email, full_name)') *)
Record ContentRow := mkContentRow {
  cr_id : uuid;
  cr_item : ContentItem.t;
  cr_assigned_to_profile : option (text * option text)
}.

(** The embedded profile of the assignee, read under the row security of
    [profiles]. *)
Definition embed_assignee (cat : catalog) (db : database) (uid : uuid) (fuel : nat)
    (c : ContentItem.t) : outcome (option (text * option text)) :=
  match ContentItem.assigned_to c with
  | None => ret None
  | Some a =>
      match db_profiles db !! a with
      | None => ret None
      | Some p =>
          let* ok := can_read_profile cat db uid fuel (a, p) in
          ret (if ok then Some (Profile.email p, Profile.full_name p) else None)
      end
  end.

(** A stored item with the email and name of its assignee. *)
Definition content_row_of (db : database) (kc : uuid * ContentItem.t) : ContentRow :=
  mkContentRow kc.1 kc.2
    ((fun p => (Profile.email p, Profile.full_name p))
     <$> (ContentItem.assigned_to kc.2 ≫= fun a => db_profiles db !! a)).

(** ORDER BY schedule_date ASC (NULLs last). *)
Definition schedule_le (a b : ContentRow) : Prop :=
  match ContentItem.schedule_date (cr_item a), ContentItem.schedule_date (cr_item b) with
  | Some x, Some y => x <= y
  | _, None => True
  | None, Some _ => False
  end.

#[global] Instance schedule_le_dec a b : Decision (schedule_le a b).
Proof.
  unfold schedule_le.
  destruct (ContentItem.schedule_date (cr_item a)),
           (ContentItem.schedule_date (cr_item b)); apply _.
Defined.

(** The content query of Dashboard.tsx without its guard on the profile:
    the rows that pass row security, the optional
    [.eq('assigned_to', ...)], the embedded assignee, the order. *)
Definition select_content_items (cat : catalog) (db : database) (uid : uuid) (fuel : nat)
    (assigned : option uuid) : outcome (list ContentRow) :=
  let* rs := filterM (can_read_content cat db uid fuel)
               (map_to_list (db_content_items db)) in
  let rs' := List.filter
               (fun kc => match assigned with
                          | Some u => bool_decide (ContentItem.assigned_to kc.2 = Some u)
                          | None => true
                          end) rs in
  let* rows := mapM (fun kc => let* e := embed_assignee cat db uid fuel kc.2 in
                               ret (mkContentRow kc.1 kc.2 e)) rs' in
  ret (merge_sort schedule_le rows).

(** queryFn of ['content-items', profile?.id, isAdmin]:
    if (!profile?.id) return []; ... if (!isAdmin) query.eq('assigned_to', profile.id) *)
Definition Dashboard_contentItems (cat : catalog) (db : database) (uid : uuid)
    (fuel : nat) (profile : option (uuid * Profile.t)) : outcome (list ContentRow) :=
  match profile with
  | None => ret []
  | Some kp =>
      if falsy kp.1 then ret []
      else select_content_items cat db uid fuel (content_query_filter profile)
  end.

(** *** The form of AdminDashboard.tsx *)

(** Its form data, which has no title. *)
Record AdminFormData := mkAdminFormData {
  afd_caption : text;
  afd_content_type : text;
  afd_media_url : text;
  afd_schedule_date : text;
  afd_assigned_to : text
}.

(** The state of the [AdminDashboard] component that the form uses. *)
Record AdminState := mkAdminState {
  ad_showForm : bool;
  ad_formData : AdminFormData;
  ad_profile : option (uuid * Profile.t)
}.

Record admin_world := mkAdminWorld {
  aw_ui : AdminState;
  aw_db : database;
  aw_requests : list request;
  aw_alerts : list string
}.

(** { ...formData, created_by: profile?.id, status: 'Pending' } *)
Definition admin_submit_payload (st : AdminState) : content_insert :=
  let fd := ad_formData st in
  <["status" := Some (lit "Pending")]>
    (with_created_by (ad_profile st)
       (<["caption" := Some (afd_caption fd)]>
       (<["content_type" := Some (afd_content_type fd)]>
       (<["media_url" := Some (afd_media_url fd)]>
       (<["schedule_date" := Some (afd_schedule_date fd)]>
       (<["assigned_to" := Some (afd_assigned_to fd)]> ∅)))))).

Definition admin_empty_form (format_date : timestamptz -> text) (now : timestamptz)
  : AdminFormData :=
  mkAdminFormData [] (lit "Post") [] (format_date now) [].

(** handleSubmit of AdminDashboard.tsx by the principal [uid] *)
Definition AdminDashboard_handleSubmit (timestamptz_in : text -> option timestamptz)
    (uuid_in : text -> option uuid) (format_date : timestamptz -> text)
    (cat : catalog) (fuel : nat) (uid : uuid)
    (w : admin_world) (new_id : uuid) (now : timestamptz) : admin_world :=
  let st := aw_ui w in
  if falsy (afd_assigned_to (ad_formData st))
  then mkAdminWorld st (aw_db w) (aw_requests w)
         (aw_alerts w ++ ["Please select a user to assign the content to"%string])
  else
    let i := admin_submit_payload st in
    match insert_content_item timestamptz_in uuid_in cat fuel (aw_db w) uid new_id now i with
    | inr db' =>
        mkAdminWorld (mkAdminState false (admin_empty_form format_date now) (ad_profile st))
          db' (aw_requests w ++ [ReqInsert i]) (aw_alerts w)
    | inl _ => mkAdminWorld st (aw_db w) (aw_requests w ++ [ReqInsert i]) (aw_alerts w)
    end.

(** The admin page with the form filled in as in [ex_dashboard]. *)
Definition ex_admin_world (who : uuid) : admin_world :=
  mkAdminWorld
    (mkAdminState true
       (mkAdminFormData (lit "Caption") (lit "Post") (lit "https://drive.google.com/g")
          (lit "2025-02-25") ex_client)
       ((fun p => (who, p)) <$> ex_profiles !! who))
    ex_db [] [].

(** *** The archive view (renderArchive) *)

Section Archive.
(** format(new Date(item.schedule_date), 'yyyy') and (..., 'MMMM'): a year
    in digits and the name of a month (so never the name of a property that
    every object has); [None] when format throws on an invalid date. *)
Variable format_yyyy : text -> option text.
Variable format_MMMM : text -> option text.

(** The callback of [archivedContent.reduce]; the accumulator is the object
    of objects of arrays, [None] once an exception was thrown. *)
Definition group_step (acc : option (gmap text (gmap text (list Item.t)))) (item : Item.t)
  : option (gmap text (gmap text (list Item.t))) :=
  match acc with
  | None => None
  | Some g =>
      match format_yyyy (Item.schedule_date item), format_MMMM (Item.schedule_date item) with
      | Some year, Some month =>
          let months := default ∅ (g !! year) in
          let items := default [] (months !! month) in
          Some (<[year := <[month := items ++ [item]]> months]> g)
      | _, _ => None
      end
  end.

Definition itemsByYearAndMonth (archived : list Item.t)
  : option (gmap text (gmap text (list Item.t))) :=
  fold_left group_step archived (Some ∅).

(** The items shown under a year and month. *)
Definition group_of (g : gmap text (gmap text (list Item.t))) (year month : text)
  : list Item.t :=
  default [] (g !! year ≫= fun months => months !! month).

(** The items of a list that belong under a year and month. *)
Definition in_group (year month : text) (item : Item.t) : bool :=
  bool_decide (format_yyyy (Item.schedule_date item) = Some year
               /\ format_MMMM (Item.schedule_date item) = Some month).

(** [g] groups the items of [l], without empty years. *)
Definition groups_of (l : list Item.t) (g : gmap text (gmap text (list Item.t))) : Prop :=
  (forall year month, group_of g year month = List.filter (in_group year month) l)
  /\ (forall year months, g !! year = Some months ->
        exists month items, months !! month = Some items /\ items <> []).

(** Object.keys(itemsByYearAndMonth).length === 0: "No archived content". *)
Definition no_archived_content (g : gmap text (gmap text (list Item.t))) : bool :=
  bool_decide (size g = 0%nat).
End Archive.

(** *** Routes (App.tsx) *)

(** The route a location matches. *)
Inductive location := loc_login | loc_root | loc_admin | loc_none.

Inductive Page :=
  | LoginPage
  | DashboardPage
  | AdminDashboardPage (v : AdminView)
  | NoPage.

Inductive element := Render (p : Page) | Navigate (to : location).

(** if (!session) return <Navigate to="/" />; return <>{children}</>; *)
Definition ProtectedRoute (session : bool) (children : element) : element :=
  if session then children else Navigate loc_root.

Definition AppRoutes (session : bool) (profile : option (uuid * Profile.t))
    (l : location) : element :=
  match l with
  | loc_login => Navigate loc_root
  | loc_root => Render (if session then DashboardPage else LoginPage)
  | loc_admin =>
      ProtectedRoute session (Render (AdminDashboardPage (AdminDashboard profile)))
  | loc_none => Render NoPage
  end.

(** Following the redirects, at most [fuel] of them. *)
Fixpoint shown (fuel : nat) (session : bool) (profile : option (uuid * Profile.t))
    (l : location) : option Page :=
  match AppRoutes session profile l with
  | Render p => Some p
  | Navigate to =>
      match fuel with
      | O => None
      | S n => shown n session profile to
      end
  end.

(** ** States the application can reach *)






(** *** Further example data *)

Definition ex_format_yyyy (s : text) : option text :=
  if bool_decide (s = lit "2025-02-24") || bool_decide (s = lit "2025-02-25")
  then Some (lit "2025") else None.

Definition ex_format_MMMM (s : text) : option text :=
  if bool_decide (s = lit "2025-02-24") || bool_decide (s = lit "2025-02-25")
  then Some (lit "February") else None.

(** The first user of the application. *)
Definition ex_first_user : auth_user :=
  mkUser ex_admin (Some (lit "geral@stagelink.pt")) {["full_name"%string := lit "Stagelink"]}.

Definition ex_first_db : database :=
  mkDb {[ex_admin := Profile.mk (lit "geral@stagelink.pt") (Some (lit "Stagelink"))
                       (Some true) (Some 3) (Some 3)]} ∅.


(** * Properties *)

(** ** The catalog after the migrations *)

Lemma migrations_succeed :
  run_migrations empty_catalog migrations
  = Some (mkCatalog [content_items; profiles] final_policies [is_admin]).
Proof. vm_compute. reflexivity. Qed.

Lemma final_catalog_unfold :
  final_catalog = mkCatalog [content_items; profiles] final_policies [is_admin].
Proof. unfold final_catalog. rewrite migrations_succeed. reflexivity. Qed.

(** Wherever the rejection-notes migration runs after the first migration,
    the same policies result. *)
Lemma migration_order_irrelevant :
  run_migrations empty_catalog
    [billowing_paper; rejection_notes_migration; violet_dream; tight_boat]
  = Some (mkCatalog [content_items; profiles]
            (drop 5 final_policies ++ take 5 final_policies) [is_admin])
  /\ run_migrations empty_catalog
       [billowing_paper; violet_dream; rejection_notes_migration; tight_boat]
     = Some (mkCatalog [content_items; profiles]
               (drop 5 final_policies ++ take 5 final_policies) [is_admin]).
Proof. split; vm_compute; reflexivity. Qed.

Lemma final_rls_enabled t : rls_enabled final_catalog t = true.
Proof. destruct t; vm_compute; reflexivity. Qed.

Lemma final_find_is_admin : find_function final_catalog "is_admin" = Some is_admin.
Proof. vm_compute. reflexivity. Qed.

Lemma final_profiles_select :
  applicable final_catalog profiles Select Using
  = [("Allow users to read own profile"%string, Eq (Col col_id) AuthUid);
     ("Allow admins to read all profiles"%string, Call "is_admin")].
Proof. vm_compute. reflexivity. Qed.

Lemma final_content_select :
  applicable final_catalog content_items Select Using
  = [("Allow users to read assigned content"%string,
      Or (Eq (Col col_assigned_to) AuthUid) (Call "is_admin"))].
Proof. vm_compute. reflexivity. Qed.

Lemma final_content_insert :
  applicable final_catalog content_items Insert WithCheck
  = [("Allow admins to create content"%string, Call "is_admin")].
Proof. vm_compute. reflexivity. Qed.

Lemma final_content_update k :
  applicable final_catalog content_items Update k
  = [("Allow content management"%string,
      Or (Eq (Col col_assigned_to) AuthUid) (Call "is_admin"));
     ("Users can update rejection notes on assigned content"%string,
      Eq AuthUid (Col col_assigned_to))].
Proof. destruct k; vm_compute; reflexivity. Qed.

(** ** Evaluation of [is_admin()] *)

Lemma mapM_pure {A B} (f : A -> B) (l : list A) :
  mapM (fun a => Ok (f a) []) l = Ok (f <$> l) [].
Proof.
  induction l as [|a l IH]; [reflexivity|].
  cbn [mapM]. rewrite IH. reflexivity.
Qed.

Lemma admin_flag_spec db uid : admin_flag db uid = true <-> has_admin_profile db uid.
Proof.
  unfold admin_flag, has_admin_profile. split.
  - destruct (db_profiles db !! uid) as [p|]; [|discriminate].
    intros H%bool_decide_eq_true. eauto.
  - intros (p & -> & Hp). by apply bool_decide_eq_true.
Qed.

Lemma admin_where_profile uid k p :
  is_true (admin_where uid (profile_tuple (k, p))) = true
  <-> k = uid /\ Profile.is_admin p = Some true.
Proof.
  unfold admin_where, profile_tuple. cbn.
  destruct (Profile.is_admin p) as [[|]|]; cbn; case_bool_decide; cbn;
    split; try discriminate; try (intros [? ?]; congruence); auto.
Qed.

Lemma existsb_admin_where db uid :
  existsb is_true (admin_where uid <$> rows db profiles) = admin_flag db uid.
Proof.
  apply eq_true_iff_eq. rewrite admin_flag_spec, existsb_exists. unfold rows. split.
  - intros (v & Hin & Hv). apply list_elem_of_In in Hin.
    apply list_elem_of_fmap in Hin as (r & -> & Hr).
    apply list_elem_of_fmap in Hr as ([k p] & -> & Hkp).
    apply elem_of_map_to_list in Hkp.
    apply admin_where_profile in Hv as [-> Hp]. exists p. auto.
  - intros (p & Hp & Ha).
    exists (admin_where uid (profile_tuple (uid, p))). split.
    + apply list_elem_of_In, list_elem_of_fmap. eexists; split; [reflexivity|].
      apply list_elem_of_fmap. exists (uid, p). split; [reflexivity|].
      by apply elem_of_map_to_list.
    + by apply admin_where_profile.
Qed.

(** With fuel for the call and its body, [is_admin()] is one scan of
    [profiles] without row security, whoever calls it. *)
Lemma eval_call_is_admin cat db uid n bypass r :
  find_function cat "is_admin" = Some is_admin ->
  eval cat db uid (S (S n)) bypass r (Call "is_admin")
  = Ok (VBool (admin_flag db uid)) [FnCall "is_admin"; Scan profiles false].
Proof.
  intros Hf. cbn [eval eval_expr]. rewrite Hf.
  cbn [is_admin fn_security_definer fn_body orb exists_admin_profile eval_expr scan].
  cbn [tell ret bind app].
  rewrite (mapM_pure (admin_where uid)).
  cbn [bind app ret]. rewrite existsb_admin_where. reflexivity.
Qed.

(** ** The row checks of the final policies *)

Lemma assigned_to_uid_content uid c :
  assigned_to_uid uid (content_tuple c) = true <-> ContentItem.assigned_to c.2 = Some uid.
Proof.
  unfold assigned_to_uid, content_tuple. cbn.
  destruct (ContentItem.assigned_to c.2) as [u|]; cbn; [|intuition discriminate].
  case_bool_decide; intuition congruence.
Qed.

Lemma is_true_or_eq (a b : value) (f : bool) :
  is_true (sql_or (sql_eq a b) (VBool f)) = is_true (sql_eq a b) || f.
Proof. destruct a, b; cbn; try case_bool_decide; destruct f; reflexivity. Qed.

(** [assigned_to = auth.uid() OR is_admin()], the expression of the select
    and update policies of [content_items]. *)
Lemma eval_assigned_or_admin db uid n r :
  eval final_catalog db uid (S (S n)) false r
    (Or (Eq (Col col_assigned_to) AuthUid) (Call "is_admin"))
  = Ok (sql_or (sql_eq (r col_assigned_to) (VUuid uid)) (VBool (admin_flag db uid)))
       [FnCall "is_admin"; Scan profiles false].
Proof.
  change (eval final_catalog db uid (S (S n)) false r
            (Or (Eq (Col col_assigned_to) AuthUid) (Call "is_admin")))
    with (let* x := Ok (sql_eq (r col_assigned_to) (VUuid uid)) [] in
          let* y := eval final_catalog db uid (S (S n)) false r (Call "is_admin") in
          ret (sql_or x y)).
  rewrite (eval_call_is_admin _ _ _ _ _ _ final_find_is_admin). reflexivity.
Qed.

(** Open a row check of the final catalog on its list of policies [lem]. *)
Ltac open_check lem :=
  unfold check_row, policies_pass;
  rewrite final_rls_enabled, lem; cbn [mapM fst snd];
  rewrite ?eval_assigned_or_admin,
          ?(eval_call_is_admin _ _ _ _ _ _ final_find_is_admin).

Lemma check_profiles_select db uid n r :
  check_row final_catalog db uid (S (S n)) profiles Select Using r
  = Ok (is_true (sql_eq (r col_id) (VUuid uid)) || admin_flag db uid)
       [PolicyEval profiles "Allow users to read own profile";
        PolicyEval profiles "Allow admins to read all profiles";
        FnCall "is_admin"; Scan profiles false].
Proof.
  open_check final_profiles_select.
  cbn. destruct (admin_flag db uid); rewrite ?orb_false_r; reflexivity.
Qed.

Lemma check_content_select db uid n r :
  check_row final_catalog db uid (S (S n)) content_items Select Using r
  = Ok (assigned_to_uid uid r || admin_flag db uid)
       [PolicyEval content_items "Allow users to read assigned content";
        FnCall "is_admin"; Scan profiles false].
Proof.
  open_check final_content_select.
  cbn. rewrite orb_false_r, is_true_or_eq. reflexivity.
Qed.

Lemma check_content_insert db uid n r :
  check_row final_catalog db uid (S (S n)) content_items Insert WithCheck r
  = Ok (admin_flag db uid)
       [PolicyEval content_items "Allow admins to create content";
        FnCall "is_admin"; Scan profiles false].
Proof.
  open_check final_content_insert.
  cbn. destruct (admin_flag db uid); reflexivity.
Qed.

(** Both update policies are evaluated; the second adds nothing to the
    first. *)
Lemma check_content_update db uid n k r :
  check_row final_catalog db uid (S (S n)) content_items Update k r
  = Ok (assigned_to_uid uid r || admin_flag db uid)
       [PolicyEval content_items "Allow content management";
        FnCall "is_admin"; Scan profiles false;
        PolicyEval content_items "Users can update rejection notes on assigned content"].
Proof.
  open_check final_content_update.
  cbn. rewrite is_true_or_eq. unfold assigned_to_uid.
  destruct (r col_assigned_to) as [| |u]; cbn;
    repeat case_bool_decide; try congruence;
    destruct (admin_flag db uid); reflexivity.
Qed.

(** ** Termination of policy evaluation *)

(** The first migration, for contrast: its admin policy on [profiles] reads
    [profiles] under that same policy, and no amount of fuel is enough as
    soon as the table has a row.  (PostgreSQL detects the cycle when it
    expands the policies and fails the query with "infinite recursion
    detected in policy for relation profiles".) *)
Lemma initial_profiles_select :
  applicable initial_catalog profiles Select Using
  = [("Users can read their own profile"%string, Eq AuthUid (Col col_id));
     ("Admin users can read all profiles"%string, exists_admin_profile)].
Proof. vm_compute. reflexivity. Qed.

Lemma initial_policies_diverge db uid fuel r :
  db_profiles db <> ∅ ->
  policies_pass initial_catalog (eval initial_catalog db uid fuel) profiles Select Using r
  = Diverge.
Proof.
  intros Hne. revert r. induction fuel as [|n IH]; intros r.
  - unfold policies_pass. rewrite initial_profiles_select. reflexivity.
  - unfold policies_pass in *. rewrite initial_profiles_select in *.
    cbn [mapM fst snd eval eval_expr exists_admin_profile].
    assert (Hscan : scan initial_catalog db (eval initial_catalog db uid n) false profiles
                    = Diverge).
    { unfold scan. replace (rls_enabled initial_catalog profiles) with true
        by (vm_compute; reflexivity).
      cbn [orb negb]. unfold rows.
      destruct (map_to_list (db_profiles db)) as [|kp l] eqn:E.
      - apply map_to_list_empty_iff in E. contradiction.
      - cbn [fmap list_fmap filterM]. unfold policies_pass.
        rewrite initial_profiles_select, IH. reflexivity. }
    rewrite Hscan. cbn. destruct (sql_eq (VUuid uid) (r col_id)); reflexivity.
Qed.

Lemma initial_profile_read_diverges db uid fuel q :
  db_profiles db <> ∅ ->
  can_read_profile initial_catalog db uid fuel q = Diverge.
Proof.
  intros Hne. unfold can_read_profile, check_row.
  replace (rls_enabled initial_catalog profiles) with true by (vm_compute; reflexivity).
  by apply initial_policies_diverge.
Qed.

(** ** Access control under the final policies *)

(** C1: under the final policies, is_admin() evaluated for any principal,
    from any context, is exactly one scan of [profiles] to which no row
    policy is applied (no policy of [profiles] is evaluated inside it), and
    the evaluation of the read policies of [profiles] on any row terminates
    with a trace of fixed length: the two policies once each and that single
    scan. *)
Theorem is_admin_single_lookup_and_profile_read_terminates
    (db : database) (uid : uuid) (n : nat) :
  (forall bypass r,
     eval final_catalog db uid (S (S n)) bypass r (Call "is_admin")
     = Ok (VBool (admin_flag db uid)) [FnCall "is_admin"; Scan profiles false])
  /\ (forall q, exists b,
        can_read_profile final_catalog db uid (S (S n)) q
        = Ok b [PolicyEval profiles "Allow users to read own profile";
                PolicyEval profiles "Allow admins to read all profiles";
                FnCall "is_admin"; Scan profiles false]).
Proof.
  split.
  - intros bypass r. apply eval_call_is_admin, final_find_is_admin.
  - intros q. unfold can_read_profile. rewrite check_profiles_select. eauto.
Qed.

(** C2: a principal can read a content item exactly when the item is
    assigned to the principal or the principal's profile has the admin flag. *)
Theorem content_read_iff_assignee_or_admin
    (db : database) (uid : uuid) (n : nat) (c : uuid * ContentItem.t) :
  exists b,
    result (can_read_content final_catalog db uid (S (S n)) c) = Some b
    /\ (b = true <->
        ContentItem.assigned_to c.2 = Some uid \/ has_admin_profile db uid).
Proof.
  unfold can_read_content. rewrite check_content_select. eexists. split; [reflexivity|].
  rewrite orb_true_iff, assigned_to_uid_content, admin_flag_spec. reflexivity.
Qed.

Lemma own_profile_tuple uid (q : uuid * Profile.t) :
  is_true (sql_eq (profile_tuple q col_id) (VUuid uid)) = true <-> q.1 = uid.
Proof. cbn. case_bool_decide; intuition congruence. Qed.

(** C7: a principal can read a profile row exactly when it is the
    principal's own row or the principal is an admin; the own row is always
    readable, and every row is readable exactly for an admin. *)
Theorem profile_read_own_or_admin (db : database) (uid : uuid) (n : nat) :
  (forall q, exists b,
      result (can_read_profile final_catalog db uid (S (S n)) q) = Some b
      /\ (b = true <-> q.1 = uid \/ has_admin_profile db uid))
  /\ (forall p, result (can_read_profile final_catalog db uid (S (S n)) (uid, p)) = Some true)
  /\ ((forall q, result (can_read_profile final_catalog db uid (S (S n)) q) = Some true)
      <-> has_admin_profile db uid).
Proof.
  assert (Hread : forall q,
             result (can_read_profile final_catalog db uid (S (S n)) q)
             = Some (is_true (sql_eq (profile_tuple q col_id) (VUuid uid))
                     || admin_flag db uid)).
  { intros q. unfold can_read_profile. rewrite check_profiles_select. reflexivity. }
  split; [|split].
  - intros q. eexists. split; [apply Hread|].
    rewrite orb_true_iff, own_profile_tuple, admin_flag_spec. reflexivity.
  - intros p. rewrite Hread. f_equal. apply orb_true_iff. left.
    by apply own_profile_tuple.
  - split.
    + intros Hall.
      specialize (Hall (0%N :: uid, Profile.mk [] None None None None)).
      rewrite Hread in Hall. apply (inj Some) in Hall.
      apply orb_true_iff in Hall as [Hown|Hadm]; [|by apply admin_flag_spec].
      apply own_profile_tuple in Hown. cbn in Hown.
      apply (f_equal length) in Hown. cbn in Hown. lia.
    + intros Hadm q. rewrite Hread. f_equal. apply orb_true_iff. right.
      by apply admin_flag_spec.
Qed.


(** *** Inserts *)

Lemma column_value_inl {A} (input : text -> option A) v dflt e :
  column_value input v dflt = inl e -> e = InvalidInput.
Proof.
  unfold column_value. destruct v as [[s|]|]; [destruct (input s)| |]; congruence.
Qed.

(** When the body is read into a row. *)
Lemma new_row_inr tsin uin new_id now i r :
  new_row tsin uin new_id now i = inr r
  <-> map_Forall (fun k _ => k ∈ content_items_columns) i
      /\ column_value uin (i !! "id") (Some new_id) = inr (n_id r)
      /\ column_value tsin (i !! "schedule_date") None = inr (n_schedule_date r)
      /\ column_value uin (i !! "created_by") None = inr (n_created_by r)
      /\ column_value uin (i !! "assigned_to") None = inr (n_assigned_to r)
      /\ column_value tsin (i !! "created_at") (Some now) = inr (n_created_at r)
      /\ column_value tsin (i !! "updated_at") (Some now) = inr (n_updated_at r)
      /\ column_value tsin (i !! "rejected_at") None = inr (n_rejected_at r)
      /\ n_caption r = column_text (i !! "caption") None
      /\ n_content_type r = column_text (i !! "content_type") None
      /\ n_media_url r = column_text (i !! "media_url") None
      /\ n_status r = column_text (i !! "status") (Some (lit "Pending"))
      /\ n_rejection_notes r = column_text (i !! "rejection_notes") None.
Proof.
  unfold new_row. case_bool_decide as Hk.
  - unfold and_then. split.
    + destruct (column_value uin (i !! "id") (Some new_id)); [discriminate|].
      destruct (column_value tsin (i !! "schedule_date") None); [discriminate|].
      destruct (column_value uin (i !! "created_by") None); [discriminate|].
      destruct (column_value uin (i !! "assigned_to") None); [discriminate|].
      destruct (column_value tsin (i !! "created_at") (Some now)); [discriminate|].
      destruct (column_value tsin (i !! "updated_at") (Some now)); [discriminate|].
      destruct (column_value tsin (i !! "rejected_at") None); [discriminate|].
      intros [= <-]. cbn. repeat split; done.
    + intros (_ & -> & -> & -> & -> & -> & -> & -> & H1 & H2 & H3 & H4 & H5).
      destruct r; cbn in *; congruence.
  - split; [discriminate|]. by intros [? _].
Qed.

Lemma new_row_inl tsin uin new_id now i e :
  new_row tsin uin new_id now i = inl e -> e = UndefinedColumn \/ e = InvalidInput.
Proof.
  unfold new_row. case_bool_decide; [|intros [= <-]; by left].
  unfold and_then. intros Hr. right. revert Hr.
  repeat match goal with
         | |- context [column_value ?f ?v ?d] =>
             let E := fresh "E" in
             destruct (column_value f v d) eqn:E;
             [apply column_value_inl in E; congruence|]
         end.
  discriminate.
Qed.

Lemma insert_content_item_final tsin uin db uid n new_id now i :
  insert_content_item tsin uin final_catalog (S (S n)) db uid new_id now i
  = match new_row tsin uin new_id now i with
    | inr r => if admin_flag db uid then store_content_item db r else inl RlsViolation
    | inl e => inl e
    end.
Proof.
  unfold insert_content_item.
  destruct (new_row tsin uin new_id now i) as [e|r]; cbn; [reflexivity|].
  rewrite check_content_insert. destruct (admin_flag db uid); reflexivity.
Qed.

Lemma store_content_item_not_rls db r :
  store_content_item db r <> inl RlsViolation.
Proof.
  unfold store_content_item, and_then, required.
  destruct (n_id r) as [id|]; [|discriminate].
  destruct (n_caption r); [|discriminate].
  destruct (n_content_type r) as [ct|]; [|discriminate].
  destruct (n_media_url r); [|discriminate].
  destruct (parse_content_type ct); [|discriminate].
  destruct (n_status r) as [st|]; [destruct (parse_status st); [|discriminate]|];
    cbv beta iota;
    (destruct (bool_decide (is_Some (db_content_items db !! id))); [discriminate|]);
    (destruct (negb (references_profile db (n_created_by r)
                     && references_profile db (n_assigned_to r))); discriminate).
Qed.

(** When the constraints accept a row, and what is stored then. *)
Lemma store_content_item_inr db r db' :
  store_content_item db r = inr db'
  <-> exists id caption ctype_text ctype media_url status,
        n_id r = Some id
        /\ n_caption r = Some caption
        /\ n_content_type r = Some ctype_text
        /\ parse_content_type ctype_text = Some ctype
        /\ n_media_url r = Some media_url
        /\ match n_status r with
           | None => status = None
           | Some s => is_Some (parse_status s) /\ status = parse_status s
           end
        /\ db_content_items db !! id = None
        /\ references_profile db (n_created_by r) = true
        /\ references_profile db (n_assigned_to r) = true
        /\ db' = mkDb (db_profiles db)
                   (<[id := ContentItem.mk caption ctype media_url status
                              (n_schedule_date r) (n_created_by r) (n_assigned_to r)
                              (n_created_at r) (n_updated_at r)
                              (n_rejection_notes r) (n_rejected_at r)]>
                      (db_content_items db)).
Proof.
  unfold store_content_item, and_then, required. split.
  - destruct (n_id r) as [id|]; [|discriminate].
    destruct (n_caption r) as [cap|]; [|discriminate].
    destruct (n_content_type r) as [ct|]; [|discriminate].
    destruct (n_media_url r) as [mu|]; [|discriminate].
    destruct (parse_content_type ct) as [cty|] eqn:Ect; [|discriminate].
    destruct (n_status r) as [s|] eqn:Es;
      [destruct (parse_status s) as [st|] eqn:Eps; [|discriminate]|];
      cbv beta iota;
      (case_bool_decide as Hid; [discriminate|]);
      (destruct (references_profile db (n_created_by r)) eqn:R1; [|discriminate]);
      (destruct (references_profile db (n_assigned_to r)) eqn:R2; [|discriminate]);
      cbn [andb negb]; intros [= <-];
      eexists id, cap, ct, cty, mu, _;
      (split; [reflexivity|]); (split; [reflexivity|]); (split; [reflexivity|]);
      (split; [exact Ect|]); (split; [reflexivity|]);
      (split; [first [split; [eauto|reflexivity]|reflexivity]|]);
      (split; [by apply eq_None_not_Some|]); repeat split; reflexivity.
  - intros (id & cap & ct & cty & mu & st & -> & -> & -> & -> & -> & Hst & Hid & -> & -> & ->).
    cbv beta iota.
    assert (match n_status r with
            | Some s => match parse_status s with
                        | Some st => inr (Some st)
                        | None => inl CheckViolation
                        end
            | None => inr None
            end = @inr db_error (option status_t) st) as ->.
    { destruct (n_status r) as [s|]; [|by rewrite Hst].
      destruct Hst as [[st' Hst'] ->]. by rewrite Hst'. }
    rewrite bool_decide_eq_false_2; [reflexivity|].
    rewrite Hid. by intros [? ?].
Qed.

(** A successful insert has read the body into a row and stored it. *)
Lemma insert_content_item_stores tsin uin cat fuel db uid new_id now i db' :
  insert_content_item tsin uin cat fuel db uid new_id now i = inr db' ->
  exists r, new_row tsin uin new_id now i = inr r /\ store_content_item db r = inr db'.
Proof.
  unfold insert_content_item, and_then.
  destruct (new_row tsin uin new_id now i) as [e|r]; [discriminate|].
  destruct (run_check _); [discriminate|]. eauto.
Qed.

Lemma insert_content_item_inr tsin uin db uid n new_id now i db' :
  insert_content_item tsin uin final_catalog (S (S n)) db uid new_id now i = inr db'
  <-> has_admin_profile db uid
      /\ exists r, new_row tsin uin new_id now i = inr r
                   /\ store_content_item db r = inr db'.
Proof.
  rewrite insert_content_item_final, <- admin_flag_spec.
  destruct (new_row tsin uin new_id now i) as [e|r].
  - split; [discriminate|]. by intros (_ & r & ? & _).
  - destruct (admin_flag db uid).
    + split; [eauto|]. by intros (_ & r' & [= <-] & ?).
    + split; [discriminate|]. by intros [? _].
Qed.

(** C5: the insert policy passes exactly for a principal whose profile has
    the admin flag; every insert attempted by a principal without it fails,
    and an insert by an admin is never refused by row security. *)
Theorem insert_permitted_iff_admin
    (timestamptz_in : text -> option timestamptz)
    (uuid_in : text -> option uuid) (db : database) (uid : uuid) (n : nat) :
  (forall c, exists b,
      result (can_insert_content final_catalog db uid (S (S n)) c) = Some b
      /\ (b = true <-> has_admin_profile db uid))
  /\ (~ has_admin_profile db uid ->
      forall new_id now i, exists e,
        insert_content_item timestamptz_in uuid_in final_catalog (S (S n)) db uid new_id now i
        = inl e)
  /\ (has_admin_profile db uid ->
      forall new_id now i,
        insert_content_item timestamptz_in uuid_in final_catalog (S (S n)) db uid new_id now i
        <> inl RlsViolation
        /\ (forall r, new_row timestamptz_in uuid_in new_id now i = inr r ->
            insert_content_item timestamptz_in uuid_in final_catalog (S (S n)) db uid new_id now i
            = store_content_item db r)).
Proof.
  split; [|split].
  - intros c. unfold can_insert_content. rewrite check_content_insert.
    eexists. split; [reflexivity|]. apply admin_flag_spec.
  - intros Hna new_id now i. rewrite insert_content_item_final.
    assert (admin_flag db uid = false) as ->.
    { destruct (admin_flag db uid) eqn:E; [|reflexivity].
      apply admin_flag_spec in E. contradiction. }
    destruct (new_row timestamptz_in uuid_in new_id now i); eauto.
  - intros Ha%admin_flag_spec new_id now i. rewrite insert_content_item_final, Ha.
    split.
    + destruct (new_row timestamptz_in uuid_in new_id now i) as [e|r] eqn:E.
      * apply new_row_inl in E as [->| ->]; discriminate.
      * apply store_content_item_not_rls.
    + intros r ->. reflexivity.
Qed.

(** *** Updates *)

Lemma update_content_item_final db uid n id p c :
  db_content_items db !! id = Some c ->
  update_content_item final_catalog (S (S n)) db uid id p
  = if assigned_to_uid uid (content_tuple (id, c)) || admin_flag db uid
    then
      if assigned_to_uid uid (content_tuple (id, apply_patch p c)) || admin_flag db uid
      then
        if bool_decide (ContentItem.assigned_to (apply_patch p c) = ContentItem.assigned_to c)
           || references_profile db (ContentItem.assigned_to (apply_patch p c))
        then inr (mkDb (db_profiles db) (<[id := apply_patch p c]> (db_content_items db)))
        else inl ForeignKeyViolation
      else inl RlsViolation
    else inr db.
Proof.
  intros Hc. unfold update_content_item. rewrite Hc.
  unfold can_read_content, can_update_content, can_store_updated_content.
  rewrite check_content_select, !check_content_update.
  destruct (assigned_to_uid uid (content_tuple (id, c)) || admin_flag db uid);
    [|reflexivity].
  destruct (assigned_to_uid uid (content_tuple (id, apply_patch p c)) || admin_flag db uid);
    reflexivity.
Qed.

Lemma update_keeps_assignee db uid n id c p :
  db_content_items db !! id = Some c ->
  upd_assigned_to p = None ->
  update_content_item final_catalog (S (S n)) db uid id p
  = if assigned_to_uid uid (content_tuple (id, c)) || admin_flag db uid
    then inr (mkDb (db_profiles db) (<[id := apply_patch p c]> (db_content_items db)))
    else inr db.
Proof.
  intros Hc Hp. rewrite (update_content_item_final _ _ _ _ _ _ Hc).
  assert (Hsame : ContentItem.assigned_to (apply_patch p c) = ContentItem.assigned_to c).
  { unfold apply_patch. cbn. rewrite Hp. reflexivity. }
  assert (Hsame' : assigned_to_uid uid (content_tuple (id, apply_patch p c))
                   = assigned_to_uid uid (content_tuple (id, c))).
  { unfold assigned_to_uid, content_tuple. cbn [snd]. rewrite Hsame. reflexivity. }
  rewrite Hsame', Hsame, bool_decide_eq_true_2 by reflexivity. cbn [orb].
  destruct (assigned_to_uid uid (content_tuple (id, c)) || admin_flag db uid); reflexivity.
Qed.

Lemma may_update_spec db uid id c :
  assigned_to_uid uid (content_tuple (id, c)) || admin_flag db uid = true
  <-> ContentItem.assigned_to c = Some uid \/ has_admin_profile db uid.
Proof. rewrite orb_true_iff, assigned_to_uid_content, admin_flag_spec. reflexivity. Qed.

(** An update that keeps the assignee, by the assignee or an admin, is
    carried out. *)
Lemma update_permitted_keeps_assignee db uid n id c p :
  db_content_items db !! id = Some c ->
  upd_assigned_to p = None ->
  ContentItem.assigned_to c = Some uid \/ has_admin_profile db uid ->
  update_content_item final_catalog (S (S n)) db uid id p
  = inr (mkDb (db_profiles db) (<[id := apply_patch p c]> (db_content_items db))).
Proof.
  intros Hc Hp Hperm%(may_update_spec _ _ id). rewrite (update_keeps_assignee _ _ _ _ _ _ Hc Hp).
  rewrite Hperm. reflexivity.
Qed.

Lemma only_rejection_rule_update k :
  applicable only_rejection_rule content_items Update k
  = [("Users can update rejection notes on assigned content"%string,
      Eq AuthUid (Col col_assigned_to))].
Proof. destruct k; vm_compute; reflexivity. Qed.

Lemma check_only_rejection_rule db uid n k c :
  result (check_row only_rejection_rule db uid (S n) content_items Update k (content_tuple c))
  = Some (bool_decide (ContentItem.assigned_to c.2 = Some uid)).
Proof.
  unfold check_row, policies_pass.
  replace (rls_enabled only_rejection_rule content_items) with true
    by (vm_compute; reflexivity).
  rewrite only_rejection_rule_update.
  cbn. destruct (ContentItem.assigned_to c.2) as [u|]; cbn.
  - repeat case_bool_decide; cbn; congruence.
  - rewrite bool_decide_eq_false_2; [reflexivity|discriminate].
Qed.

(** C6: the update policies let a principal update a content item exactly
    when the principal is its assignee or an admin, and an update that keeps
    the assignee is carried out exactly in that case (otherwise the row is
    left as it is); the rejection-notes policy on its own lets exactly the
    assignee update the row and store the rejection fields. *)
Theorem update_permitted_iff_assignee_or_admin
    (db : database) (uid : uuid) (n : nat) :
  (forall c, exists b,
      result (can_update_content final_catalog db uid (S (S n)) c) = Some b
      /\ (b = true <->
          ContentItem.assigned_to c.2 = Some uid \/ has_admin_profile db uid))
  /\ (forall id c p,
        db_content_items db !! id = Some c ->
        upd_assigned_to p = None ->
        (ContentItem.assigned_to c = Some uid \/ has_admin_profile db uid ->
         update_content_item final_catalog (S (S n)) db uid id p
         = inr (mkDb (db_profiles db) (<[id := apply_patch p c]> (db_content_items db))))
        /\ (~ (ContentItem.assigned_to c = Some uid \/ has_admin_profile db uid) ->
            update_content_item final_catalog (S (S n)) db uid id p = inr db))
  /\ (forall id c notes now,
        result (can_update_content only_rejection_rule db uid (S (S n)) (id, c))
        = Some (bool_decide (ContentItem.assigned_to c = Some uid))
        /\ result (can_store_updated_content only_rejection_rule db uid (S (S n))
                     (id, apply_patch (reject_patch notes now) c))
           = Some (bool_decide (ContentItem.assigned_to c = Some uid))).
Proof.
  split; [|split].
  - intros c. unfold can_update_content. rewrite check_content_update.
    eexists. split; [reflexivity|].
    rewrite orb_true_iff, assigned_to_uid_content, admin_flag_spec. reflexivity.
  - intros id c p Hc Hp. split.
    + by apply update_permitted_keeps_assignee.
    + intros Hn. rewrite (update_keeps_assignee _ _ _ _ _ _ Hc Hp).
      destruct (assigned_to_uid uid (content_tuple (id, c)) || admin_flag db uid) eqn:E;
        [|reflexivity].
      apply may_update_spec in E. contradiction.
  - intros id c notes now. unfold can_update_content, can_store_updated_content.
    rewrite !check_only_rejection_rule. split; reflexivity.
Qed.

(** An assignee who is not an admin cannot give the item away: the new row
    fails the WITH CHECK clauses. *)
Lemma update_reassign_refused db uid n id c other :
  db_content_items db !! id = Some c ->
  ContentItem.assigned_to c = Some uid ->
  other <> uid ->
  admin_flag db uid = false ->
  update_content_item final_catalog (S (S n)) db uid id (mkPatch None None None (Some other))
  = inl RlsViolation.
Proof.
  intros Hc Ha Ho Hadm. rewrite (update_content_item_final _ _ _ _ _ _ Hc), Hadm.
  rewrite !orb_false_r.
  assert (assigned_to_uid uid (content_tuple (id, c)) = true) as ->
    by (by apply assigned_to_uid_content).
  assert (assigned_to_uid uid (content_tuple (id, apply_patch (mkPatch None None None (Some other)) c)) = false) as ->.
  { apply not_true_is_false. intros H%assigned_to_uid_content. cbn in H. congruence. }
  reflexivity.
Qed.


(** ** Archived and current content *)

Section DatesFacts.
Variable parseISO : text -> Date.
Variable utc_offset : Z.

Lemma partition_step_eq now acc item :
  partition_step parseISO utc_offset now acc item
  = if is_archived parseISO utc_offset now item
    then mkPartition (currentContent acc) (archivedContent acc ++ [item])
    else mkPartition (currentContent acc ++ [item]) (archivedContent acc).
Proof. reflexivity. Qed.

Lemma fold_partition_step now items acc :
  fold_left (partition_step parseISO utc_offset now) items acc
  = mkPartition
      (currentContent acc
       ++ List.filter (fun i => negb (is_archived parseISO utc_offset now i)) items)
      (archivedContent acc ++ List.filter (is_archived parseISO utc_offset now) items).
Proof.
  revert acc. induction items as [|item items IH]; intros [cur arch].
  - cbn [fold_left List.filter currentContent archivedContent].
    rewrite !app_nil_r. reflexivity.
  - cbn [fold_left List.filter]. rewrite IH, partition_step_eq.
    destruct (is_archived parseISO utc_offset now item);
      cbn [negb currentContent archivedContent];
      rewrite <- ?app_assoc; reflexivity.
Qed.

(** The day after local midnight of a day is the next local midnight. *)
Lemma startOfDay_next_day t :
  startOfDay utc_offset (Some (t + ms_per_day))
  = (fun m => m + ms_per_day) <$> startOfDay utc_offset (Some t).
Proof.
  unfold startOfDay. cbn. f_equal.
  replace (t + ms_per_day + utc_offset) with (t + utc_offset + 1 * ms_per_day) by lia.
  rewrite Z_mod_plus_full. lia.
Qed.

(** Day granularity: the start of the day of [t] is before the start of
    today exactly when [t] itself is before local midnight of today. *)
Lemma isBefore_startOfDay t now :
  isBefore (startOfDay utc_offset (Some t)) (startOfDay utc_offset (Some now)) = true
  <-> t < now - (now + utc_offset) mod ms_per_day.
Proof.
  unfold startOfDay, isBefore. cbn. rewrite Z.ltb_lt.
  pose proof (Z.div_mod (t + utc_offset) ms_per_day) as Ht.
  pose proof (Z.div_mod (now + utc_offset) ms_per_day) as Hn.
  pose proof (Z.mod_pos_bound (t + utc_offset) ms_per_day eq_refl) as Bt.
  pose proof (Z.mod_pos_bound (now + utc_offset) ms_per_day eq_refl) as Bn.
  unfold ms_per_day in *.
  generalize dependent ((t + utc_offset) mod 86400000).
  generalize dependent ((now + utc_offset) mod 86400000).
  generalize dependent ((t + utc_offset) / 86400000).
  generalize dependent ((now + utc_offset) / 86400000).
  intros qn qt rn Hn Bn rt Ht Bt. lia.
Qed.

Lemma archived_iff_scheduled_before_local_midnight now item t :
  parseISO (Item.schedule_date item) = Some t ->
  is_archived parseISO utc_offset now item = true
  <-> t < now - (now + utc_offset) mod ms_per_day.
Proof.
  intros Ht. unfold is_archived, today. rewrite Ht. apply isBefore_startOfDay.
Qed.

(** An item whose date does not parse is never archived. *)
Lemma invalid_date_is_current now item :
  parseISO (Item.schedule_date item) = None ->
  is_archived parseISO utc_offset now item = false.
Proof. intros Ht. unfold is_archived. rewrite Ht. reflexivity. Qed.

(** An item scheduled on the current local day is current today and
    archived from the next day on: the class is not a property of the
    stored row. *)
Lemma scheduled_today_archived_tomorrow now item t :
  parseISO (Item.schedule_date item) = Some t ->
  startOfDay utc_offset (Some t) = startOfDay utc_offset (Some now) ->
  is_archived parseISO utc_offset now item = false
  /\ is_archived parseISO utc_offset (now + ms_per_day) item = true.
Proof.
  intros Ht Hday. unfold is_archived, today.
  rewrite Ht, startOfDay_next_day, Hday.
  unfold startOfDay, isBefore. cbn. split; [apply Z.ltb_irrefl|].
  apply Z.ltb_lt. unfold ms_per_day. lia.
Qed.
End DatesFacts.

(** C8: the dashboard puts an item in [archivedContent] exactly when the
    start of the day of its schedule date is before the start of the current
    day, and in [currentContent] otherwise; both lists are computed from the
    items read and the current time alone, every item read is in exactly one
    of them, and the archive view shows the archived ones. *)
Theorem archived_iff_schedule_day_before_today
    (parseISO : text -> Date) (utc_offset : Z) (now : timestamptz)
    (contentItems : list Item.t) :
  let p := partition_content parseISO utc_offset now contentItems in
  let before item :=
    isBefore (startOfDay utc_offset (parseISO (Item.schedule_date item)))
             (startOfDay utc_offset (Some now)) in
  archivedContent p = List.filter before contentItems
  /\ currentContent p = List.filter (fun item => negb (before item)) contentItems
  /\ (forall item, In item (archivedContent p) <-> In item contentItems /\ before item = true)
  /\ (forall item, In item (currentContent p) <-> In item contentItems /\ before item = false)
  /\ (forall item, In item contentItems ->
        (In item (archivedContent p) /\ ~ In item (currentContent p))
        \/ (In item (currentContent p) /\ ~ In item (archivedContent p)))
  /\ (forall st, viewMode st = view_archive ->
        filteredItems parseISO utc_offset st now contentItems = archivedContent p).
Proof.
  intros p before.
  assert (Ha : archivedContent p = List.filter before contentItems).
  { unfold p, partition_content. rewrite fold_partition_step. reflexivity. }
  assert (Hc : currentContent p = List.filter (fun item => negb (before item)) contentItems).
  { unfold p, partition_content. rewrite fold_partition_step. reflexivity. }
  assert (Hina : forall item,
             In item (archivedContent p) <-> In item contentItems /\ before item = true).
  { intros item. rewrite Ha. apply filter_In. }
  assert (Hinc : forall item,
             In item (currentContent p) <-> In item contentItems /\ before item = false).
  { intros item. rewrite Hc, filter_In, negb_true_iff. reflexivity. }
  split; [exact Ha|]. split; [exact Hc|]. split; [exact Hina|]. split; [exact Hinc|].
  split.
  - intros item Hin. rewrite !Hina, !Hinc.
    destruct (before item); [left|right]; (split; [auto|intros [_ ?]; discriminate]).
  - intros st Hv. rewrite Ha. unfold filteredItems. rewrite Hv. reflexivity.
Qed.

(** ** The trigger on new users *)

Lemma insert_profile_inr db id email full_name admin now db' :
  insert_profile db id email full_name admin now = inr db' <->
  exists e, email = Some e
    /\ db_profiles db !! id = None
    /\ (forall k p, db_profiles db !! k = Some p -> Profile.email p <> e)
    /\ db' = mkDb (<[id := Profile.mk e full_name admin (Some now) (Some now)]>
                     (db_profiles db))
                  (db_content_items db).
Proof.
  unfold insert_profile, and_then, required.
  destruct email as [e|]; [|split; [discriminate|intros (? & ? & _); discriminate]].
  case_bool_decide as Hid.
  { split; [discriminate|]. intros (e' & _ & Hnone & _).
    rewrite Hnone in Hid. by destruct Hid. }
  destruct (existsb _ _) eqn:Hex.
  { split; [discriminate|]. intros (e' & [= <-] & _ & Huniq & _).
    apply existsb_exists in Hex as ([k p] & Hin & Heq).
    apply list_elem_of_In, elem_of_map_to_list in Hin.
    apply bool_decide_eq_true in Heq. exfalso. exact (Huniq k p Hin Heq). }
  split.
  - intros [= <-]. exists e. repeat split.
    + by apply eq_None_not_Some.
    + intros k p Hkp Heq.
      assert (existsb (fun kp : uuid * Profile.t => bool_decide (Profile.email kp.2 = e))
                (map_to_list (db_profiles db)) = true) as Hex'.
      { apply existsb_exists. exists (k, p). split.
        - by apply list_elem_of_In, elem_of_map_to_list.
        - by apply bool_decide_eq_true. }
      congruence.
  - intros (e' & [= <-] & _ & _ & ->). reflexivity.
Qed.

(** C9: whenever the creation of a user goes through, the trigger has added
    exactly one profile row, with the id and email of the new user, and its
    admin flag is true exactly when that email is 'geral@stagelink.pt'. *)
Theorem handle_new_user_inserts_one_profile
    (db : database) (new : auth_user) (now : timestamptz) (db' : database) :
  handle_new_user db new now = inr db' ->
  exists e row,
    au_email new = Some e
    /\ db_profiles db !! au_id new = None
    /\ db_profiles db' = <[au_id new := row]> (db_profiles db)
    /\ size (db_profiles db') = S (size (db_profiles db))
    /\ db_content_items db' = db_content_items db
    /\ Profile.email row = e
    /\ Profile.full_name row = au_raw_user_meta_data new !! "full_name"%string
    /\ (exists flag, Profile.is_admin row = Some flag
                     /\ (flag = true <-> e = lit "geral@stagelink.pt")).
Proof.
  unfold handle_new_user. intros (e & He & Hnone & _ & ->)%insert_profile_inr.
  eexists e, _. cbn [db_profiles db_content_items].
  repeat split; try reflexivity; try assumption.
  - by apply map_size_insert_None.
  - rewrite He. cbn. eexists. split; [reflexivity|].
    apply bool_decide_eq_true.
Qed.

(** The creation goes through for every user with an email, when neither
    the id nor the email has a profile yet. *)
Lemma handle_new_user_succeeds db new now e :
  au_email new = Some e ->
  db_profiles db !! au_id new = None ->
  (forall k p, db_profiles db !! k = Some p -> Profile.email p <> e) ->
  exists db', handle_new_user db new now = inr db'.
Proof.
  intros He Hid Hu. eexists. unfold handle_new_user.
  apply insert_profile_inr. exists e. repeat split; eauto.
Qed.

(** ** The admin check of the user interface *)

(** C10: the dashboard and the admin dashboard decide whether the principal
    is an admin from the email of the profile alone: a profile with the
    admin flag and another email is treated as a client, the bootstrap
    email is treated as admin whatever the flag, and two profiles with the
    same email are treated alike. *)
Theorem ui_admin_decided_by_email :
  (forall id p,
      Profile.is_admin p = Some true ->
      Profile.email p <> lit "geral@stagelink.pt" ->
      isAdmin (Some (id, p)) = false
      /\ AdminDashboard (Some (id, p)) = AccessDenied
      /\ content_query_filter (Some (id, p)) = Some id
      /\ (forall st, profile st = Some (id, p) -> showAddContent st = false))
  /\ (forall id p,
        Profile.email p = lit "geral@stagelink.pt" ->
        isAdmin (Some (id, p)) = true /\ AdminDashboard (Some (id, p)) = AdminPage)
  /\ (forall id p id' p',
        Profile.email p = Profile.email p' ->
        isAdmin (Some (id, p)) = isAdmin (Some (id', p'))
        /\ AdminDashboard (Some (id, p)) = AdminDashboard (Some (id', p'))).
Proof.
  split; [|split].
  - intros id p _ Hne.
    assert (Hadm : isAdmin (Some (id, p)) = false).
    { unfold isAdmin. cbn [snd]. by apply bool_decide_eq_false. }
    repeat split.
    + exact Hadm.
    + unfold AdminDashboard. cbn [fmap option_fmap option_map snd].
      rewrite bool_decide_eq_false_2; [reflexivity|]. intros [= ?]. contradiction.
    + unfold content_query_filter. rewrite Hadm. reflexivity.
    + intros st Hst. unfold showAddContent. rewrite Hst, Hadm. apply andb_false_r.
  - intros id p He. unfold isAdmin, AdminDashboard.
    cbn [fmap option_fmap option_map snd]. rewrite He.
    rewrite !bool_decide_eq_true_2 by reflexivity. split; reflexivity.
  - intros id p id' p' He. unfold isAdmin, AdminDashboard.
    cbn [fmap option_fmap option_map snd]. rewrite He. split; reflexivity.
Qed.


(** ** Creating content *)

Lemma parse_status_Pending : parse_status (lit "Pending") = Some Pending.
Proof. vm_compute. reflexivity. Qed.

(** The status of the row that an insert stores: that of the body. *)
Lemma insert_content_item_status tsin uin cat fuel db uid new_id now i db' :
  insert_content_item tsin uin cat fuel db uid new_id now i = inr db' ->
  exists id c,
    column_value uin (i !! "id") (Some new_id) = inr (Some id)
    /\ db_content_items db' !! id = Some c
    /\ match i !! "status" with
       | None => ContentItem.status c = Some Pending
       | Some None => ContentItem.status c = None
       | Some (Some s) =>
           exists st, parse_status s = Some st /\ ContentItem.status c = Some st
       end.
Proof.
  intros (r & Hr & Hs)%insert_content_item_stores.
  apply new_row_inr in Hr as (_ & Hid & _ & _ & _ & _ & _ & _ & _ & _ & _ & Hst & _).
  apply store_content_item_inr in Hs
    as (id & cap & ct & cty & mu & st & Eid & _ & _ & _ & _ & Est & _ & _ & _ & ->).
  rewrite Eid in Hid. rewrite Hst in Est.
  eexists id, _. split; [exact Hid|]. cbn [db_content_items].
  split; [apply lookup_insert_eq|]. cbn [ContentItem.status].
  destruct (i !! "status") as [[s|]|]; cbn [column_text] in Est.
  - destruct Est as [[st' Hst'] ->]. eauto.
  - exact Est.
  - destruct Est as [_ ->]. apply parse_status_Pending.
Qed.

(** The keys of the two request bodies. *)
Lemma submit_payload_title st :
  submit_payload st !! "title" = Some (Some (fd_title (formData st))).
Proof.
  unfold submit_payload, with_created_by. destruct (profile st); by simplify_map_eq.
Qed.

Lemma submit_payload_status st :
  submit_payload st !! "status" = Some (Some (lit "Pending")).
Proof. unfold submit_payload. apply lookup_insert_eq. Qed.

Lemma admin_submit_payload_status st :
  admin_submit_payload st !! "status" = Some (Some (lit "Pending")).
Proof. unfold admin_submit_payload. apply lookup_insert_eq. Qed.

Lemma title_is_no_column : "title" ∉ content_items_columns.
Proof. apply (bool_decide_unpack _). vm_compute. exact I. Qed.

(** The request of the dashboard form names a column that the table does
    not have, and is refused whatever the policies. *)
Lemma submit_payload_refused tsin uin cat fuel db uid new_id now st :
  insert_content_item tsin uin cat fuel db uid new_id now (submit_payload st)
  = inl UndefinedColumn.
Proof.
  unfold insert_content_item, new_row.
  rewrite bool_decide_eq_false_2; [reflexivity|].
  intros H. apply (title_is_no_column (H _ _ (submit_payload_title st))).
Qed.

Ltac lookup_body :=
  repeat first [rewrite lookup_insert_eq
               |rewrite lookup_insert_ne by discriminate
               |rewrite lookup_empty].

Lemma admin_submit_payload_keys st :
  let i := admin_submit_payload st in
  let fd := ad_formData st in
  i !! "id" = None
  /\ i !! "caption" = Some (Some (afd_caption fd))
  /\ i !! "content_type" = Some (Some (afd_content_type fd))
  /\ i !! "media_url" = Some (Some (afd_media_url fd))
  /\ i !! "status" = Some (Some (lit "Pending"))
  /\ i !! "schedule_date" = Some (Some (afd_schedule_date fd))
  /\ i !! "created_by" = (fun kp : uuid * Profile.t => Some (kp.1 : text)) <$> ad_profile st
  /\ i !! "assigned_to" = Some (Some (afd_assigned_to fd))
  /\ i !! "created_at" = None
  /\ i !! "updated_at" = None
  /\ i !! "rejection_notes" = None
  /\ i !! "rejected_at" = None.
Proof.
  unfold admin_submit_payload, with_created_by.
  destruct (ad_profile st) as [kp|]; cbn [fmap option_fmap option_map];
    repeat split; lookup_body; reflexivity.
Qed.

Lemma column_value_Some {A} (input : text -> option A) s dflt o :
  column_value input (Some (Some s)) dflt = inr o -> is_Some (input s) /\ o = input s.
Proof. cbn. destruct (input s); [|discriminate]. intros [= <-]. eauto. Qed.

(** The row that the request of the admin form proposes. *)
Lemma admin_submit_payload_row tsin uin new_id now st r :
  new_row tsin uin new_id now (admin_submit_payload st) = inr r ->
  n_id r = Some new_id
  /\ n_caption r = Some (afd_caption (ad_formData st))
  /\ n_content_type r = Some (afd_content_type (ad_formData st))
  /\ n_media_url r = Some (afd_media_url (ad_formData st))
  /\ n_status r = Some (lit "Pending")
  /\ n_schedule_date r = tsin (afd_schedule_date (ad_formData st))
  /\ n_created_by r = ad_profile st ≫= (fun kp => uin kp.1)
  /\ n_assigned_to r = uin (afd_assigned_to (ad_formData st))
  /\ n_created_at r = Some now
  /\ n_updated_at r = Some now
  /\ n_rejection_notes r = None
  /\ n_rejected_at r = None
  /\ is_Some (tsin (afd_schedule_date (ad_formData st)))
  /\ is_Some (uin (afd_assigned_to (ad_formData st))).
Proof.
  intros (_ & Hid & Hsd & Hcb & Hat & Hca & Hua & Hra & -> & -> & -> & -> & ->)%new_row_inr.
  destruct (admin_submit_payload_keys st)
    as (K1 & K2 & K3 & K4 & K5 & K6 & K7 & K8 & K9 & K10 & K11 & K12).
  cbv zeta in *.
  rewrite K1 in Hid. rewrite K6 in Hsd. rewrite K7 in Hcb. rewrite K8 in Hat.
  rewrite K9 in Hca. rewrite K10 in Hua. rewrite K12 in Hra.
  rewrite K2, K3, K4, K5, K11.
  apply column_value_Some in Hsd as [Hsd' ->]. apply column_value_Some in Hat as [Hat' ->].
  cbn in Hid, Hca, Hua, Hra. simplify_eq.
  repeat split; try congruence.
  destruct (ad_profile st) as [kp|]; cbn [fmap option_fmap option_map] in Hcb.
  - apply column_value_Some in Hcb as [_ ->]. reflexivity.
  - cbn in Hcb |- *. congruence.
Qed.

(** C3, as the code has it: the database stores the status that the
    request supplies, Pending, Approved or Rejected, or NULL for null, and
    uses Pending only as the default of a request without status.  It is
    the two form handlers that always send status 'Pending': an item
    created through the form of the admin page is stored as Pending, and
    the request of the dashboard form, which names a title, creates none. *)
Theorem insert_status_pending_by_default_and_by_client
    (timestamptz_in : text -> option timestamptz)
    (uuid_in : text -> option uuid) (format_date : timestamptz -> text)
    (cat : catalog) (fuel : nat) (uid new_id : uuid) (now : timestamptz) :
  (forall db i db',
      insert_content_item timestamptz_in uuid_in cat fuel db uid new_id now i = inr db' ->
      exists id c,
        column_value uuid_in (i !! "id") (Some new_id) = inr (Some id)
        /\ db_content_items db' !! id = Some c
        /\ match i !! "status" with
           | None => ContentItem.status c = Some Pending
           | Some None => ContentItem.status c = None
           | Some (Some s) =>
               exists st, parse_status s = Some st /\ ContentItem.status c = Some st
           end)
  /\ (forall st, submit_payload st !! "status" = Some (Some (lit "Pending")))
  /\ (forall st, admin_submit_payload st !! "status" = Some (Some (lit "Pending")))
  /\ (forall w,
        let w' := AdminDashboard_handleSubmit timestamptz_in uuid_in format_date cat fuel uid
                    w new_id now in
        aw_db w' = aw_db w
        \/ (aw_requests w' = aw_requests w ++ [ReqInsert (admin_submit_payload (aw_ui w))]
            /\ exists c, db_content_items (aw_db w') !! new_id = Some c
                         /\ ContentItem.status c = Some Pending))
  /\ (forall w,
        w_db (handleSubmit timestamptz_in uuid_in format_date cat fuel uid w new_id now)
        = w_db w).
Proof.
  split; [|split; [|split; [|split]]].
  - intros db i db'. apply insert_content_item_status.
  - apply submit_payload_status.
  - apply admin_submit_payload_status.
  - intros w. unfold AdminDashboard_handleSubmit.
    destruct (falsy (afd_assigned_to (ad_formData (aw_ui w)))); [left; reflexivity|].
    destruct (insert_content_item _ _ _ _ _ _ _ _ _) as [e|db'] eqn:E; [left; reflexivity|].
    right. cbn [aw_db aw_requests]. split; [reflexivity|].
    apply insert_content_item_status in E as (id & c & Hc & Hl & Hst).
    rewrite admin_submit_payload_status in Hst. destruct Hst as (st & Hp & Hst).
    rewrite parse_status_Pending in Hp. injection Hp as <-.
    exists c. split; [|exact Hst].
    destruct (admin_submit_payload_keys (aw_ui w)) as (K & _). cbv zeta in K.
    rewrite K in Hc. cbn in Hc. by simplify_eq.
  - intros w. unfold handleSubmit.
    destruct (falsy (fd_assigned_to (formData (w_ui w)))); [reflexivity|].
    by rewrite submit_payload_refused.
Qed.

(** ** Rejecting content *)

Lemma trimStart_nil s : trimStart s = [] <-> blank s.
Proof.
  unfold blank. induction s as [|c s IH]; cbn.
  - split; [constructor|reflexivity].
  - destruct (js_whitespace c) eqn:E.
    + rewrite IH. split; [by constructor|by inversion 1].
    + split; [discriminate|]. inversion 1; congruence.
Qed.

Lemma trimStart_blank_inv s : blank (trimStart s) -> blank s.
Proof.
  unfold blank. induction s as [|c s IH]; cbn; [done|].
  destruct (js_whitespace c) eqn:E.
  - intros H. constructor; auto.
  - done.
Qed.

(** [!s.trim()] holds exactly for the strings made of white space only. *)
Lemma falsy_trim_blank s : falsy (trim s) = true <-> blank s.
Proof.
  unfold falsy, trim. rewrite bool_decide_eq_true. split.
  - intros H. apply (f_equal (@rev N)) in H. rewrite rev_involutive in H. cbn in H.
    apply trimStart_nil in H. apply trimStart_blank_inv.
    unfold blank in *. apply Forall_forall. intros x Hx.
    rewrite Forall_forall in H. apply H. apply list_elem_of_In, in_rev.
    rewrite rev_involutive. by apply list_elem_of_In.
  - intros Hb%trimStart_nil. rewrite Hb. reflexivity.
Qed.

(** C4: handleReject with blank notes (empty or white space only) sends
    nothing and changes nothing; with notes that are not blank, for the item
    being rejected and a principal allowed to update it, it sends exactly
    one update, and that statement alone sets status to Rejected, the
    rejection notes to the notes entered and the rejection timestamp to the
    time of the call, leaving the other columns and the other rows as they
    were. *)
Theorem handleReject_requires_notes_and_rejects_atomically
    (uid : uuid) (n : nat) (w : world) (now : timestamptz) :
  (forall cat fuel,
      blank (rejectionNotes (w_ui w)) -> handleReject cat fuel uid w now = w)
  /\ (forall id c,
        let notes := rejectionNotes (w_ui w) in
        let w' := handleReject final_catalog (S (S n)) uid w now in
        ~ blank notes ->
        rejectingItemId (w_ui w) = Some id ->
        id <> [] ->
        db_content_items (w_db w) !! id = Some c ->
        ContentItem.assigned_to c = Some uid \/ has_admin_profile (w_db w) uid ->
        w_requests w' = w_requests w ++ [ReqUpdate id (reject_patch notes now)]
        /\ db_profiles (w_db w') = db_profiles (w_db w)
        /\ db_content_items (w_db w')
           = <[id := ContentItem.mk
                       (ContentItem.caption c)
                       (ContentItem.content_type c) (ContentItem.media_url c)
                       (Some Rejected)
                       (ContentItem.schedule_date c) (ContentItem.created_by c)
                       (ContentItem.assigned_to c)
                       (ContentItem.created_at c) (ContentItem.updated_at c)
                       (Some notes) (Some now)]>
               (db_content_items (w_db w))).
Proof.
  split.
  - intros cat fuel Hb. unfold handleReject.
    destruct (rejectingItemId (w_ui w)) as [id|]; [|reflexivity].
    apply falsy_trim_blank in Hb. rewrite Hb, orb_true_r. reflexivity.
  - intros id c notes w' Hnb Hid Hne Hc Hperm. unfold w', handleReject.
    rewrite Hid.
    assert (falsy id = false) as -> by (by apply bool_decide_eq_false).
    assert (falsy (trim (rejectionNotes (w_ui w))) = false) as ->.
    { apply not_true_is_false. intros H%falsy_trim_blank. contradiction. }
    cbn [orb].
    pose proof (update_permitted_keeps_assignee (w_db w) uid n id c
                  (reject_patch (rejectionNotes (w_ui w)) now) Hc eq_refl Hperm) as Hupd.
    rewrite Hupd. cbn [w_requests w_db db_profiles db_content_items].
    repeat split; reflexivity.
Qed.


(** ** The properties on the example database *)

(** The assignee approves a pending item: the status becomes Approved and
    no rejection notes are set. *)
Example assignee_approves_pending_item :
  db_content_items
    (w_db (handleStatusUpdate final_catalog 2 ex_client (ex_world [] None ex_client)
             ex_item_id Approved)) !! ex_item_id
  = Some (ContentItem.mk (lit "Caption") Reel
            (lit "https://drive.google.com/f") (Some Approved) (Some 1740441600000)
            (Some ex_admin) (Some ex_client) (Some 0) (Some 0) None None).
Proof. vm_compute. reflexivity. Qed.

(** Asking to reject only opens the notes dialog; nothing is sent. *)
Example reject_button_sends_nothing :
  let w := handleStatusUpdate final_catalog 2 ex_client (ex_world (lit "old") None ex_client)
             ex_item_id Rejected in
  w_requests w = [] /\ w_db w = ex_db
  /\ rejectingItemId (w_ui w) = Some ex_item_id /\ rejectionNotes (w_ui w) = [].
Proof. vm_compute. repeat split; reflexivity. Qed.

(** The admin creates an item through the form of the admin page: it is
    stored as Pending. *)
Example form_creates_pending_item :
  stored_status
    (inr (aw_db (AdminDashboard_handleSubmit ex_timestamptz_in ex_uuid_in ex_format_date
                   final_catalog 2 ex_admin (ex_admin_world ex_admin) ex_new_id 5)))
    ex_new_id
  = Some (Some Pending).
Proof. vm_compute. reflexivity. Qed.

(** The same through the form of the dashboard: the request names a title,
    and the table has no such column. *)
Example dashboard_form_is_refused :
  insert_content_item ex_timestamptz_in ex_uuid_in final_catalog 2 ex_db ex_admin ex_new_id 5
    (submit_payload (ex_dashboard [] None ex_admin)) = inl UndefinedColumn.
Proof. vm_compute. reflexivity. Qed.

(** A request with status null is stored with no status at all. *)
Example null_status_is_stored :
  stored_status
    (insert_content_item ex_timestamptz_in ex_uuid_in final_catalog 2 ex_db ex_admin ex_new_id 5
       ex_insert_null_status) ex_new_id
  = Some None.
Proof. vm_compute. reflexivity. Qed.

(** Two levels of fuel are needed: the call and the body of [is_admin]. *)
Example is_admin_needs_two_levels :
  eval final_catalog ex_db ex_admin 1 false no_tuple (Call "is_admin") = Diverge
  /\ eval final_catalog ex_db ex_admin 2 false no_tuple (Call "is_admin")
     = Ok (VBool true) [FnCall "is_admin"; Scan profiles false].
Proof. split; vm_compute; reflexivity. Qed.

(** An insert by a principal without the admin flag is refused by the
    insert policy. *)
Example client_insert_refused :
  insert_content_item ex_timestamptz_in ex_uuid_in final_catalog 2 ex_db ex_client ex_new_id 5
    ex_insert_approved = inl RlsViolation.
Proof. vm_compute. reflexivity. Qed.

Lemma ex_client_not_admin : ~ has_admin_profile ex_db ex_client.
Proof. intros H%admin_flag_spec. vm_compute in H. discriminate. Defined.

Lemma ex_admin_is_admin : has_admin_profile ex_db ex_admin.
Proof. apply admin_flag_spec. vm_compute. reflexivity. Defined.

(** C3 fails on the database: it does not force the status, and an admin
    who sends 'Approved' gets an approved row. *)
Lemma admin_insert_stores_supplied_status :
  has_admin_profile ex_db ex_admin
  /\ stored_status
       (insert_content_item ex_timestamptz_in ex_uuid_in final_catalog 2 ex_db ex_admin ex_new_id 5
          ex_insert_approved) ex_new_id
     = Some (Some Approved)
  /\ stored_status
       (insert_content_item ex_timestamptz_in ex_uuid_in final_catalog 2 ex_db ex_admin ex_new_id 5
          ex_insert_approved) ex_new_id
     <> Some (Some Pending).
Proof.
  split; [exact ex_admin_is_admin|].
  split; [vm_compute; reflexivity|vm_compute; discriminate].
Qed.

Lemma insert_status_pending_by_default_and_by_client_witness :
  insert_content_item ex_timestamptz_in ex_uuid_in final_catalog 2 ex_db ex_admin ex_new_id 5
    (admin_submit_payload (aw_ui (ex_admin_world ex_admin)))
  = inr (aw_db (AdminDashboard_handleSubmit ex_timestamptz_in ex_uuid_in ex_format_date
                  final_catalog 2 ex_admin (ex_admin_world ex_admin) ex_new_id 5))
  /\ exists id c,
       column_value ex_uuid_in
         (admin_submit_payload (aw_ui (ex_admin_world ex_admin)) !! "id") (Some ex_new_id)
       = inr (Some id)
       /\ db_content_items
            (aw_db (AdminDashboard_handleSubmit ex_timestamptz_in ex_uuid_in ex_format_date
                      final_catalog 2 ex_admin (ex_admin_world ex_admin) ex_new_id 5)) !! id
          = Some c
       /\ match admin_submit_payload (aw_ui (ex_admin_world ex_admin)) !! "status" with
          | None => ContentItem.status c = Some Pending
          | Some None => ContentItem.status c = None
          | Some (Some s) =>
              exists st, parse_status s = Some st /\ ContentItem.status c = Some st
          end.
Proof.
  assert (H : insert_content_item ex_timestamptz_in ex_uuid_in final_catalog 2 ex_db ex_admin
                ex_new_id 5 (admin_submit_payload (aw_ui (ex_admin_world ex_admin)))
              = inr (aw_db (AdminDashboard_handleSubmit ex_timestamptz_in ex_uuid_in
                              ex_format_date final_catalog 2 ex_admin
                              (ex_admin_world ex_admin) ex_new_id 5))).
  { vm_compute. reflexivity. }
  split; [exact H|].
  destruct (insert_status_pending_by_default_and_by_client ex_timestamptz_in ex_uuid_in
              ex_format_date final_catalog 2 ex_admin ex_new_id 5) as (Hstore & _).
  exact (Hstore _ _ _ H).
Defined.

Lemma ex_notes_not_blank : ~ blank (lit " no ").
Proof. intros H%falsy_trim_blank. vm_compute in H. discriminate. Defined.

Lemma ex_spaces_blank : blank (lit "  ").
Proof. apply falsy_trim_blank. vm_compute. reflexivity. Defined.

Lemma handleReject_requires_notes_and_rejects_atomically_witness :
  handleReject final_catalog 2 ex_client (ex_world (lit "  ") (Some ex_item_id) ex_client) 77
  = ex_world (lit "  ") (Some ex_item_id) ex_client
  /\ w_requests (handleReject final_catalog 2 ex_client
                   (ex_world (lit " no ") (Some ex_item_id) ex_client) 77)
     = [ReqUpdate ex_item_id (reject_patch (lit " no ") 77)].
Proof.
  split.
  - destruct (handleReject_requires_notes_and_rejects_atomically ex_client 0
                (ex_world (lit "  ") (Some ex_item_id) ex_client) 77) as [Hblank _].
    apply Hblank. exact ex_spaces_blank.
  - destruct (handleReject_requires_notes_and_rejects_atomically ex_client 0
                (ex_world (lit " no ") (Some ex_item_id) ex_client) 77) as [_ Hreject].
    destruct (Hreject ex_item_id ex_item) as (Hreq & _ & _).
    + exact ex_notes_not_blank.
    + reflexivity.
    + vm_compute. discriminate.
    + vm_compute. reflexivity.
    + left. reflexivity.
    + exact Hreq.
Defined.

Lemma insert_permitted_iff_admin_witness :
  ~ has_admin_profile ex_db ex_client
  /\ exists e,
       insert_content_item ex_timestamptz_in ex_uuid_in final_catalog 2 ex_db ex_client ex_new_id 5
         ex_insert_approved = inl e.
Proof.
  split; [exact ex_client_not_admin|].
  destruct (insert_permitted_iff_admin ex_timestamptz_in ex_uuid_in ex_db ex_client 0) as (_ & Hno & _).
  apply Hno. exact ex_client_not_admin.
Defined.

Lemma update_permitted_iff_assignee_or_admin_witness :
  db_content_items ex_db !! ex_item_id = Some ex_item
  /\ ContentItem.assigned_to ex_item = Some ex_client
  /\ update_content_item final_catalog 2 ex_db ex_client ex_item_id (status_patch Approved)
     = inr (mkDb (db_profiles ex_db)
              (<[ex_item_id := apply_patch (status_patch Approved) ex_item]>
                 (db_content_items ex_db))).
Proof.
  assert (Hc : db_content_items ex_db !! ex_item_id = Some ex_item)
    by (vm_compute; reflexivity).
  split; [exact Hc|]. split; [reflexivity|].
  destruct (update_permitted_iff_assignee_or_admin ex_db ex_client 0) as (_ & Hupd & _).
  destruct (Hupd ex_item_id ex_item (status_patch Approved) Hc eq_refl) as [Hyes _].
  apply Hyes. left. reflexivity.
Defined.

Lemma archived_iff_schedule_day_before_today_witness :
  let items := [ex_item_of (lit "a") (lit "2025-02-24");
                ex_item_of (lit "b") (lit "2025-02-25")] in
  let st := mkDashboard view_archive (lit "all") (lit "all") (lit "all") false [] None
              (mkFormData [] [] [] [] [] []) None in
  viewMode st = view_archive
  /\ filteredItems ex_parseISO 0 st (ex_today + 5) items
     = archivedContent (partition_content ex_parseISO 0 (ex_today + 5) items)
  /\ archivedContent (partition_content ex_parseISO 0 (ex_today + 5) items)
     = [ex_item_of (lit "a") (lit "2025-02-24")].
Proof.
  intros items st. split; [reflexivity|]. split.
  - destruct (archived_iff_schedule_day_before_today ex_parseISO 0 (ex_today + 5) items)
      as (_ & _ & _ & _ & _ & Hview).
    apply Hview. reflexivity.
  - vm_compute. reflexivity.
Defined.

Lemma handle_new_user_inserts_one_profile_witness :
  let new := mkUser ex_admin (Some (lit "geral@stagelink.pt"))
               {["full_name"%string := lit "Stagelink"]} in
  let db' := mkDb {[ex_admin := Profile.mk (lit "geral@stagelink.pt") (Some (lit "Stagelink"))
                                  (Some true) (Some 3) (Some 3)]} ∅ in
  handle_new_user (mkDb ∅ ∅) new 3 = inr db'
  /\ exists e row,
       au_email new = Some e
       /\ db_profiles (mkDb ∅ ∅) !! au_id new = None
       /\ db_profiles db' = <[au_id new := row]> (db_profiles (mkDb ∅ ∅))
       /\ size (db_profiles db') = S (size (db_profiles (mkDb ∅ ∅)))
       /\ db_content_items db' = db_content_items (mkDb ∅ ∅)
       /\ Profile.email row = e
       /\ Profile.full_name row = au_raw_user_meta_data new !! "full_name"%string
       /\ (exists flag, Profile.is_admin row = Some flag
                        /\ (flag = true <-> e = lit "geral@stagelink.pt")).
Proof.
  intros new db'.
  assert (H : handle_new_user (mkDb ∅ ∅) new 3 = inr db') by (vm_compute; reflexivity).
  split; [exact H|].
  exact (handle_new_user_inserts_one_profile (mkDb ∅ ∅) new 3 db' H).
Defined.

Lemma ui_admin_decided_by_email_witness :
  ex_profiles !! ex_other
  = Some (Profile.mk (lit "promoted@example.com") None (Some true) (Some 0) (Some 0))
  /\ isAdmin (Some (ex_other,
                    Profile.mk (lit "promoted@example.com") None (Some true) (Some 0) (Some 0)))
     = false
  /\ AdminDashboard (Some (ex_other,
                           Profile.mk (lit "promoted@example.com") None (Some true)
                             (Some 0) (Some 0)))
     = AccessDenied.
Proof.
  split; [vm_compute; reflexivity|].
  destruct ui_admin_decided_by_email as (Hflag & _ & _).
  destruct (Hflag ex_other
              (Profile.mk (lit "promoted@example.com") None (Some true) (Some 0) (Some 0)))
    as (Hadm & Hview & _).
  - reflexivity.
  - vm_compute. discriminate.
  - split; [exact Hadm|exact Hview].
Defined.

(** * Further properties *)

(** ** The policies of the first two migrations *)

Lemma scan_profiles_diverges cat db uid n :
  rls_enabled cat profiles = true ->
  db_profiles db <> ∅ ->
  (forall r, policies_pass cat (eval cat db uid n) profiles Select Using r = Diverge) ->
  scan cat db (eval cat db uid n) false profiles = Diverge.
Proof.
  intros Hrls Hne Hpol. unfold scan. rewrite Hrls. cbn [orb negb]. unfold rows.
  destruct (map_to_list (db_profiles db)) as [|kp l] eqn:E.
  - apply map_to_list_empty_iff in E. contradiction.
  - cbn [fmap list_fmap filterM]. rewrite Hpol. reflexivity.
Qed.

Lemma violet_profiles_select :
  applicable violet_catalog profiles Select Using
  = [("Users can read own profile"%string, Or (Eq (Col col_id) AuthUid) select_is_admin)].
Proof. vm_compute. reflexivity. Qed.

Lemma violet_rls_enabled t : rls_enabled violet_catalog t = true.
Proof. destruct t; vm_compute; reflexivity. Qed.

Lemma initial_rls_enabled t : rls_enabled initial_catalog t = true.
Proof. destruct t; vm_compute; reflexivity. Qed.

Lemma violet_policies_diverge db uid fuel r :
  db_profiles db <> ∅ ->
  policies_pass violet_catalog (eval violet_catalog db uid fuel) profiles Select Using r
  = Diverge.
Proof.
  intros Hne. revert r. induction fuel as [|n IH]; intros r.
  - unfold policies_pass. rewrite violet_profiles_select. reflexivity.
  - unfold policies_pass. rewrite violet_profiles_select.
    cbn [mapM fst snd eval eval_expr select_is_admin].
    rewrite (scan_profiles_diverges _ _ _ _ (violet_rls_enabled profiles) Hne IH).
    cbn. destruct (sql_eq (r col_id) (VUuid uid)); reflexivity.
Qed.

(** An expression that reads [profiles] in a subquery diverges with it. *)
Lemma eval_exists_admin_diverges cat db uid n r :
  scan cat db (eval cat db uid n) false profiles = Diverge ->
  eval cat db uid (S n) false r exists_admin_profile = Diverge.
Proof. intros H. cbn [eval eval_expr exists_admin_profile]. rewrite H. reflexivity. Qed.

Lemma eval_select_is_admin_diverges cat db uid n r :
  scan cat db (eval cat db uid n) false profiles = Diverge ->
  eval cat db uid (S n) false r select_is_admin = Diverge.
Proof. intros H. cbn [eval eval_expr select_is_admin]. rewrite H. reflexivity. Qed.

Lemma eval_or_diverges cat db uid n r c b :
  eval cat db uid (S n) false r b = Diverge ->
  eval cat db uid (S n) false r (Or (Eq (Col c) AuthUid) b) = Diverge.
Proof.
  intros H. change (eval cat db uid (S n) false r (Or (Eq (Col c) AuthUid) b))
    with (let* x := Ok (sql_eq (r c) (VUuid uid)) [] in
          let* y := eval cat db uid (S n) false r b in ret (sql_or x y)).
  rewrite H. reflexivity.
Qed.

(** X1: the policies of the first migration, and those of the second, which
    was meant to remove the recursion, cannot be evaluated on a database
    with at least one profile: whatever the fuel, reading [profiles], and
    reading, inserting into or updating [content_items], all of which ask
    [profiles] who is an admin, never produce an answer.  Only the third
    migration ends this. *)
Theorem first_two_migrations_recurse (db : database) (uid : uuid) (fuel : nat) :
  db_profiles db <> ∅ ->
  forall cat, cat = initial_catalog \/ cat = violet_catalog ->
    (forall q, can_read_profile cat db uid fuel q = Diverge)
    /\ (forall c, can_read_content cat db uid fuel c = Diverge)
    /\ (forall c, can_insert_content cat db uid fuel c = Diverge)
    /\ (forall c, can_update_content cat db uid fuel c = Diverge).
Proof.
  intros Hne cat [-> | ->].
  - assert (Hscan : forall n,
               scan initial_catalog db (eval initial_catalog db uid n) false profiles
               = Diverge).
    { intros n. apply scan_profiles_diverges;
        [apply initial_rls_enabled|assumption|].
      intros r. by apply initial_policies_diverge. }
    split; [|split; [|split]]; intros x;
      unfold can_read_profile, can_read_content, can_insert_content, can_update_content,
        check_row; rewrite initial_rls_enabled.
    + by apply initial_policies_diverge.
    + unfold policies_pass.
      replace (applicable initial_catalog content_items Select Using)
        with [("Users can read assigned content"%string,
               Or (Eq (Col col_assigned_to) AuthUid) exists_admin_profile)]
        by (vm_compute; reflexivity).
      cbn [mapM fst snd tell bind]. destruct fuel as [|n]; [reflexivity|].
      rewrite eval_or_diverges; [reflexivity|]. apply eval_exists_admin_diverges, Hscan.
    + unfold policies_pass.
      replace (applicable initial_catalog content_items Insert WithCheck)
        with [("Admin users can create content"%string, exists_admin_profile)]
        by (vm_compute; reflexivity).
      cbn [mapM fst snd tell bind]. destruct fuel as [|n]; [reflexivity|].
      rewrite eval_exists_admin_diverges; [reflexivity|]. apply Hscan.
    + unfold policies_pass.
      replace (applicable initial_catalog content_items Update Using)
        with [("Admin users can update content"%string, exists_admin_profile)]
        by (vm_compute; reflexivity).
      cbn [mapM fst snd tell bind]. destruct fuel as [|n]; [reflexivity|].
      rewrite eval_exists_admin_diverges; [reflexivity|]. apply Hscan.
  - assert (Hscan : forall n,
               scan violet_catalog db (eval violet_catalog db uid n) false profiles
               = Diverge).
    { intros n. apply scan_profiles_diverges;
        [apply violet_rls_enabled|assumption|].
      intros r. by apply violet_policies_diverge. }
    split; [|split; [|split]]; intros x;
      unfold can_read_profile, can_read_content, can_insert_content, can_update_content,
        check_row; rewrite violet_rls_enabled.
    + by apply violet_policies_diverge.
    + unfold policies_pass.
      replace (applicable violet_catalog content_items Select Using)
        with [("Users can read assigned content"%string,
               Or (Eq (Col col_assigned_to) AuthUid) select_is_admin)]
        by (vm_compute; reflexivity).
      cbn [mapM fst snd tell bind]. destruct fuel as [|n]; [reflexivity|].
      rewrite eval_or_diverges; [reflexivity|]. apply eval_select_is_admin_diverges, Hscan.
    + unfold policies_pass.
      replace (applicable violet_catalog content_items Insert WithCheck)
        with [("Admin users can create content"%string, select_is_admin)]
        by (vm_compute; reflexivity).
      cbn [mapM fst snd tell bind]. destruct fuel as [|n]; [reflexivity|].
      rewrite eval_select_is_admin_diverges; [reflexivity|]. apply Hscan.
    + unfold policies_pass.
      replace (applicable violet_catalog content_items Update Using)
        with [("Users can update assigned content"%string,
               Or (Eq (Col col_assigned_to) AuthUid) select_is_admin)]
        by (vm_compute; reflexivity).
      cbn [mapM fst snd tell bind]. destruct fuel as [|n]; [reflexivity|].
      rewrite eval_or_diverges; [reflexivity|]. apply eval_select_is_admin_diverges, Hscan.
Qed.

(** ** What the final policies never allow *)

Lemma update_content_item_profiles cat fuel db uid id p db' :
  update_content_item cat fuel db uid id p = inr db' ->
  db_profiles db' = db_profiles db.
Proof.
  unfold update_content_item, and_then.
  destruct (db_content_items db !! id) as [c|]; [|by intros [= <-]].
  destruct (can_read_content cat db uid fuel (id, c)) as [[|] ?| |];
    destruct (can_update_content cat db uid fuel (id, c)) as [[|] ?| |];
    try discriminate; try (by intros [= <-]).
  destruct (run_check _); [discriminate|].
  destruct (_ || _); [|discriminate]. by intros [= <-].
Qed.

Lemma insert_content_item_profiles tsin uin cat fuel db uid new_id now i db' :
  insert_content_item tsin uin cat fuel db uid new_id now i = inr db' ->
  db_profiles db' = db_profiles db.
Proof.
  intros (r & _ & Hs)%insert_content_item_stores.
  apply store_content_item_inr in Hs
    as (? & ? & ? & ? & ? & ? & _ & _ & _ & _ & _ & _ & _ & _ & _ & ->).
  reflexivity.
Qed.

(** X2: no policy lets an authenticated principal, admin or not, insert or
    update a row of [profiles] (so nobody can set an admin flag through the
    API), and the statements on [content_items] leave [profiles] as it is. *)
Theorem profiles_are_read_only
    (timestamptz_in : text -> option timestamptz)
    (uuid_in : text -> option uuid) (db : database) (uid : uuid)
    (fuel : nat) :
  (forall k r,
      check_row final_catalog db uid fuel profiles Insert k r = Ok false []
      /\ check_row final_catalog db uid fuel profiles Update k r = Ok false [])
  /\ (forall new_id now i db',
        insert_content_item timestamptz_in uuid_in final_catalog fuel db uid new_id now i = inr db' ->
        db_profiles db' = db_profiles db)
  /\ (forall id p db',
        update_content_item final_catalog fuel db uid id p = inr db' ->
        db_profiles db' = db_profiles db).
Proof.
  split; [|split].
  - intros k r. unfold check_row, policies_pass. rewrite final_rls_enabled.
    replace (applicable final_catalog profiles Insert k) with (@nil (string * expr))
      by (destruct k; vm_compute; reflexivity).
    replace (applicable final_catalog profiles Update k) with (@nil (string * expr))
      by (destruct k; vm_compute; reflexivity).
    split; reflexivity.
  - intros new_id now i db'. apply insert_content_item_profiles.
  - intros id p db'. apply update_content_item_profiles.
Qed.

(** ** Inserts and updates of content items *)

(** X3: an insert goes through exactly when the principal is an admin,
    every key of the body names a column, the server reads the ids and
    the timestamps sent, id, caption, content type and media URL are not
    NULL, the content type is one of the four and the status NULL or one
    of the three allowed values, the id is new and the creator and the
    assignee are NULL or profiles.  It then adds exactly one row: the
    values sent, and for a key that is not sent the default of its column
    (a generated id, status Pending, the time of the insert for the two
    timestamps, NULL elsewhere). *)
Theorem insert_content_item_succeeds_iff
    (timestamptz_in : text -> option timestamptz)
    (uuid_in : text -> option uuid) (db : database) (uid : uuid) (n : nat)
    (new_id : uuid) (now : timestamptz) (i : content_insert) (db' : database) :
  insert_content_item timestamptz_in uuid_in final_catalog (S (S n)) db uid new_id now i = inr db'
  <->
  has_admin_profile db uid
  /\ (forall k, is_Some (i !! k) -> k ∈ content_items_columns)
  /\ exists id caption ctype_text ctype media_url status
            schedule_date created_by assigned_to created_at updated_at rejected_at,
       column_value uuid_in (i !! "id") (Some new_id) = inr (Some id)
       /\ column_text (i !! "caption") None = Some caption
       /\ column_text (i !! "content_type") None = Some ctype_text
       /\ parse_content_type ctype_text = Some ctype
       /\ column_text (i !! "media_url") None = Some media_url
       /\ match column_text (i !! "status") (Some (lit "Pending")) with
          | None => status = None
          | Some s => is_Some (parse_status s) /\ status = parse_status s
          end
       /\ column_value timestamptz_in (i !! "schedule_date") None = inr schedule_date
       /\ column_value uuid_in (i !! "created_by") None = inr created_by
       /\ column_value uuid_in (i !! "assigned_to") None = inr assigned_to
       /\ column_value timestamptz_in (i !! "created_at") (Some now) = inr created_at
       /\ column_value timestamptz_in (i !! "updated_at") (Some now) = inr updated_at
       /\ column_value timestamptz_in (i !! "rejected_at") None = inr rejected_at
       /\ db_content_items db !! id = None
       /\ references_profile db created_by = true
       /\ references_profile db assigned_to = true
       /\ db' = mkDb (db_profiles db)
                  (<[id := ContentItem.mk caption ctype media_url status schedule_date
                             created_by assigned_to created_at updated_at
                             (column_text (i !! "rejection_notes") None) rejected_at]>
                     (db_content_items db)).
Proof.
  rewrite insert_content_item_final, <- admin_flag_spec. split.
  - destruct (new_row timestamptz_in uuid_in new_id now i) as [e|r] eqn:Er; [discriminate|].
    destruct (admin_flag db uid); [|discriminate].
    apply new_row_inr in Er
      as (Hk & Hid & Hsd & Hcb & Hat & Hca & Hua & Hra & Ecap & Ect & Emu & Est & Ern).
    intros (id & cap & ct & cty & mu & st & Eid & Hcap & Hct & Hcty & Hmu & Hst
            & Hnew & R1 & R2 & ->)%store_content_item_inr.
    split; [reflexivity|]. split.
    { intros k [v Hv]. exact (Hk k v Hv). }
    exists id, cap, ct, cty, mu, st, (n_schedule_date r), (n_created_by r), (n_assigned_to r),
      (n_created_at r), (n_updated_at r), (n_rejected_at r).
    rewrite <- Ecap, <- Ect, <- Emu, <- Est, <- Ern, <- Eid.
    repeat (split; [assumption|]). reflexivity.
  - intros (-> & Hk & id & cap & ct & cty & mu & st & sd & cb & at_ & ca & ua & ra
            & Hid & Hcap & Hct & Hcty & Hmu & Hst & Hsd & Hcb & Hat & Hca & Hua & Hra
            & Hnew & R1 & R2 & ->).
    assert (new_row timestamptz_in uuid_in new_id now i
            = inr (mkNew (Some id) (Some cap) (Some ct) (Some mu)
                     (column_text (i !! "status") (Some (lit "Pending")))
                     sd cb at_ ca ua (column_text (i !! "rejection_notes") None) ra)) as ->.
    { apply new_row_inr. cbn. split; [intros k v Hv; apply Hk; eauto|].
      repeat (split; [done|]). done. }
    apply store_content_item_inr. cbn.
    exists id, cap, ct, cty, mu, st. repeat (split; [done|]). done.
Qed.

Lemma update_content_item_inr cat fuel db uid id p db' :
  update_content_item cat fuel db uid id p = inr db' ->
  db' = db
  \/ exists c, db_content_items db !! id = Some c
               /\ db' = mkDb (db_profiles db) (<[id := apply_patch p c]> (db_content_items db)).
Proof.
  unfold update_content_item, and_then.
  destruct (db_content_items db !! id) as [c|]; [|intros [= <-]; by left].
  destruct (can_read_content cat db uid fuel (id, c)) as [[|] ?| |];
    destruct (can_update_content cat db uid fuel (id, c)) as [[|] ?| |];
    try discriminate; try (intros [= <-]; by left).
  destruct (run_check _); [discriminate|].
  destruct (_ || _); [|discriminate]. intros [= <-]. right. eauto.
Qed.

Lemma update_missing_row cat fuel db uid (id : uuid) p :
  db_content_items db !! id = None -> update_content_item cat fuel db uid id p = inr db.
Proof. intros Hnone. unfold update_content_item. rewrite Hnone. reflexivity. Qed.

(** X4: whatever the policies, an update changes at most the row it names: the
    other rows, the set of ids and [profiles] stay as they are, the row is
    either untouched or patched, and an update of an id that is not there
    is accepted and does nothing. *)
Theorem update_touches_one_row
    (cat : catalog) (fuel : nat) (db : database) (uid id : uuid) (p : content_patch) :
  (db_content_items db !! id = None -> update_content_item cat fuel db uid id p = inr db)
  /\ (forall db',
        update_content_item cat fuel db uid id p = inr db' ->
        db_profiles db' = db_profiles db
        /\ dom (db_content_items db') = dom (db_content_items db)
        /\ (forall id', id' <> id ->
              db_content_items db' !! id' = db_content_items db !! id')
        /\ (db_content_items db' !! id = db_content_items db !! id
            \/ db_content_items db' !! id = apply_patch p <$> db_content_items db !! id)).
Proof.
  split.
  - apply update_missing_row.
  - intros db' [-> | (c & Hc & ->)]%update_content_item_inr.
    + repeat split; auto.
    + cbn [db_profiles db_content_items]. repeat split.
      * apply dom_insert_lookup_L. eauto.
      * intros id' Hne. by rewrite lookup_insert_ne.
      * right. rewrite lookup_insert_eq, Hc. reflexivity.
Qed.

Lemma assigned_patch uid id p c other :
  upd_assigned_to p = Some other ->
  assigned_to_uid uid (content_tuple (id, apply_patch p c)) = bool_decide (other = uid).
Proof.
  intros Hp. unfold assigned_to_uid, content_tuple, apply_patch. cbn. rewrite Hp. cbn.
  by destruct (bool_decide (other = uid)).
Qed.

(** X5: giving an item to somebody else: the assignee who is not an admin is
    refused (the new row fails the WITH CHECK), an admin can give it to any
    profile, and to nobody who has no profile. *)
Theorem reassignment_only_by_admin
    (db : database) (uid : uuid) (n : nat) (id : uuid) (c : ContentItem.t)
    (p : content_patch) (other : uuid) :
  db_content_items db !! id = Some c ->
  upd_assigned_to p = Some other ->
  other <> uid ->
  (ContentItem.assigned_to c = Some uid -> ~ has_admin_profile db uid ->
   update_content_item final_catalog (S (S n)) db uid id p = inl RlsViolation)
  /\ (has_admin_profile db uid -> is_Some (db_profiles db !! other) ->
      update_content_item final_catalog (S (S n)) db uid id p
      = inr (mkDb (db_profiles db) (<[id := apply_patch p c]> (db_content_items db)))
      /\ ContentItem.assigned_to (apply_patch p c) = Some other)
  /\ (has_admin_profile db uid -> db_profiles db !! other = None ->
      ContentItem.assigned_to c <> Some other ->
      update_content_item final_catalog (S (S n)) db uid id p = inl ForeignKeyViolation).
Proof.
  intros Hc Hp Hne.
  assert (Hnew : ContentItem.assigned_to (apply_patch p c) = Some other).
  { unfold apply_patch. cbn. rewrite Hp. reflexivity. }
  rewrite (update_content_item_final _ _ _ _ _ _ Hc), (assigned_patch _ _ _ _ _ Hp), Hnew.
  rewrite (bool_decide_eq_false_2 (other = uid)) by assumption.
  split; [|split].
  - intros Ha Hna.
    assert (admin_flag db uid = false) as ->.
    { apply not_true_is_false. intros H%admin_flag_spec. contradiction. }
    assert (assigned_to_uid uid (content_tuple (id, c)) = true) as ->
      by (by apply assigned_to_uid_content).
    reflexivity.
  - intros Hadm%admin_flag_spec Hsome. rewrite Hadm, !orb_true_r.
    split; [|reflexivity].
    unfold references_profile. rewrite (bool_decide_eq_true_2 _ Hsome), orb_true_r.
    reflexivity.
  - intros Hadm%admin_flag_spec Hnone Hcur. rewrite Hadm, !orb_true_r.
    rewrite bool_decide_eq_false_2 by congruence.
    unfold references_profile. rewrite bool_decide_eq_false_2; [reflexivity|].
    rewrite Hnone. by intros [? ?].
Qed.

(** ** The handlers of the dashboard *)

Lemma update_refused_keeps_assignee db uid n id c p :
  db_content_items db !! id = Some c ->
  upd_assigned_to p = None ->
  ~ (ContentItem.assigned_to c = Some uid \/ has_admin_profile db uid) ->
  update_content_item final_catalog (S (S n)) db uid id p = inr db.
Proof.
  intros Hc Hp Hn. rewrite (update_keeps_assignee _ _ _ _ _ _ Hc Hp).
  destruct (assigned_to_uid uid (content_tuple (id, c)) || admin_flag db uid) eqn:E;
    [|reflexivity].
  apply may_update_spec in E. contradiction.
Qed.

(** X6: approving (any status other than Rejected passed to handleStatusUpdate):
    one update is sent; for the assignee or an admin it sets the status and
    nothing else (rejection notes, rejection time and [updated_at] stay),
    for anybody else it changes nothing and reports no error.  Asking for
    Rejected sends nothing and opens the notes dialog with empty notes. *)
Theorem handleStatusUpdate_sets_status_only
    (uid : uuid) (n : nat) (w : world) (id : uuid) (c : ContentItem.t) (s : status_t) :
  db_content_items (w_db w) !! id = Some c ->
  let w' := handleStatusUpdate final_catalog (S (S n)) uid w id s in
  (s <> Rejected ->
   w_ui w' = w_ui w
   /\ w_requests w' = w_requests w ++ [ReqUpdate id (status_patch s)]
   /\ (ContentItem.assigned_to c = Some uid \/ has_admin_profile (w_db w) uid ->
       w_db w'
       = mkDb (db_profiles (w_db w))
           (<[id := ContentItem.mk
                      (ContentItem.caption c)
                      (ContentItem.content_type c) (ContentItem.media_url c)
                      (Some s)
                      (ContentItem.schedule_date c) (ContentItem.created_by c)
                      (ContentItem.assigned_to c)
                      (ContentItem.created_at c) (ContentItem.updated_at c)
                      (ContentItem.rejection_notes c) (ContentItem.rejected_at c)]>
              (db_content_items (w_db w))))
   /\ (~ (ContentItem.assigned_to c = Some uid \/ has_admin_profile (w_db w) uid) ->
       w_db w' = w_db w))
  /\ (s = Rejected ->
      w_db w' = w_db w /\ w_requests w' = w_requests w
      /\ rejectingItemId (w_ui w') = Some id /\ rejectionNotes (w_ui w') = []).
Proof.
  intros Hc w'. split.
  - intros Hs. unfold w', handleStatusUpdate.
    rewrite (bool_decide_eq_false_2 (s = Rejected)) by assumption.
    assert (Hcases :
              update_content_item final_catalog (S (S n)) (w_db w) uid id (status_patch s)
              = inr (w_db w)
              \/ update_content_item final_catalog (S (S n)) (w_db w) uid id (status_patch s)
                 = inr (mkDb (db_profiles (w_db w))
                          (<[id := apply_patch (status_patch s) c]>
                             (db_content_items (w_db w))))).
    { rewrite (update_keeps_assignee _ _ _ _ _ (status_patch s) Hc eq_refl).
      destruct (_ || _); auto. }
    split; [|split; [|split]].
    + destruct Hcases as [-> | ->]; reflexivity.
    + destruct Hcases as [-> | ->]; reflexivity.
    + intros Hperm.
      rewrite (update_permitted_keeps_assignee _ _ _ _ _ (status_patch s) Hc eq_refl Hperm).
      reflexivity.
    + intros Hn. rewrite (update_refused_keeps_assignee _ _ _ _ _ (status_patch s) Hc eq_refl Hn).
      reflexivity.
  - intros ->. unfold w', handleStatusUpdate. cbn. repeat split; reflexivity.
Qed.

(** X7: neither the handlers nor the policies look at the current status: the
    assignee (or an admin) can reject an item whatever its status, also an
    approved one, and approving a rejected item afterwards sets the status
    back to Approved while the rejection notes and the rejection time stay
    in the row. *)
Theorem status_transitions_are_not_guarded
    (uid : uuid) (n : nat) (w : world) (id : uuid) (c : ContentItem.t)
    (now : timestamptz) :
  db_content_items (w_db w) !! id = Some c ->
  rejectingItemId (w_ui w) = Some id ->
  id <> [] ->
  ~ blank (rejectionNotes (w_ui w)) ->
  ContentItem.assigned_to c = Some uid \/ has_admin_profile (w_db w) uid ->
  let w1 := handleReject final_catalog (S (S n)) uid w now in
  let w2 := handleStatusUpdate final_catalog (S (S n)) uid w1 id Approved in
  (ContentItem.status <$> db_content_items (w_db w1) !! id) = Some (Some Rejected)
  /\ exists c2,
       db_content_items (w_db w2) !! id = Some c2
       /\ ContentItem.status c2 = Some Approved
       /\ ContentItem.rejection_notes c2 = Some (rejectionNotes (w_ui w))
       /\ ContentItem.rejected_at c2 = Some now.
Proof.
  intros Hc Hid Hne Hnb Hperm w1 w2.
  assert (Hw1 : w_db w1
                = mkDb (db_profiles (w_db w))
                    (<[id := apply_patch (reject_patch (rejectionNotes (w_ui w)) now) c]>
                       (db_content_items (w_db w)))).
  { unfold w1, handleReject. rewrite Hid.
    assert (falsy id = false) as -> by (by apply bool_decide_eq_false).
    assert (falsy (trim (rejectionNotes (w_ui w))) = false) as ->.
    { apply not_true_is_false. intros H%falsy_trim_blank. contradiction. }
    cbn [orb].
    rewrite (update_permitted_keeps_assignee _ _ _ _ _
               (reject_patch (rejectionNotes (w_ui w)) now) Hc eq_refl Hperm).
    reflexivity. }
  assert (Hc1 : db_content_items (w_db w1) !! id
                = Some (apply_patch (reject_patch (rejectionNotes (w_ui w)) now) c)).
  { rewrite Hw1. cbn [db_content_items]. apply lookup_insert_eq. }
  split; [rewrite Hc1; reflexivity|].
  assert (Hperm1 : ContentItem.assigned_to
                     (apply_patch (reject_patch (rejectionNotes (w_ui w)) now) c) = Some uid
                   \/ has_admin_profile (w_db w1) uid).
  { destruct Hperm as [Ha | Hadm]; [left; exact Ha|right].
    unfold has_admin_profile in *. rewrite Hw1. exact Hadm. }
  exists (apply_patch (status_patch Approved)
            (apply_patch (reject_patch (rejectionNotes (w_ui w)) now) c)).
  split; [|repeat split].
  unfold w2, handleStatusUpdate. cbn [bool_decide decide_rel].
  rewrite (bool_decide_eq_false_2 (Approved = Rejected)) by discriminate.
  rewrite (update_permitted_keeps_assignee _ _ _ _ _ (status_patch Approved)
             Hc1 eq_refl Hperm1).
  cbn [w_db db_content_items]. apply lookup_insert_eq.
Qed.

(** X8: the two content forms.  Without an assignee nothing is sent and the
    user is alerted.  The form of the dashboard sends a body with a title,
    which the table refuses, as it has no such column: form and database
    stay as they were, whoever submits.  The form of the admin page sends
    the body without a title: a principal without the admin flag is
    refused and the form stays open as it was; when the insert goes
    through, the form is closed and emptied and the one new row is Pending,
    with the caption, content type, media URL and schedule date of the
    form, created by the profile of the page and assigned to the user
    chosen, both timestamps at the time of the insert and no rejection
    fields. *)
Theorem handleSubmit_outcomes
    (timestamptz_in : text -> option timestamptz)
    (uuid_in : text -> option uuid) (format_date : timestamptz -> text)
    (uid : uuid) (n : nat) (new_id : uuid) (now : timestamptz) :
  (forall w : world,
      let w' := handleSubmit timestamptz_in uuid_in format_date final_catalog (S (S n)) uid
                  w new_id now in
      let fd := formData (w_ui w) in
      w_ui w' = w_ui w /\ w_db w' = w_db w
      /\ (fd_assigned_to fd = [] ->
          w_requests w' = w_requests w
          /\ w_alerts w'
             = w_alerts w ++ ["Please select a user to assign the content to"%string])
      /\ (fd_assigned_to fd <> [] ->
          w_requests w' = w_requests w ++ [ReqInsert (submit_payload (w_ui w))]
          /\ w_alerts w' = w_alerts w
          /\ submit_payload (w_ui w) !! "title" = Some (Some (fd_title fd))
          /\ insert_content_item timestamptz_in uuid_in final_catalog (S (S n)) (w_db w) uid
               new_id now (submit_payload (w_ui w))
             = inl UndefinedColumn))
  /\ (forall w : admin_world,
      let w' := AdminDashboard_handleSubmit timestamptz_in uuid_in format_date final_catalog
                  (S (S n)) uid w new_id now in
      let fd := ad_formData (aw_ui w) in
      (afd_assigned_to fd = [] ->
       aw_ui w' = aw_ui w /\ aw_db w' = aw_db w /\ aw_requests w' = aw_requests w
       /\ aw_alerts w'
          = aw_alerts w ++ ["Please select a user to assign the content to"%string])
      /\ (afd_assigned_to fd <> [] ->
          aw_requests w' = aw_requests w ++ [ReqInsert (admin_submit_payload (aw_ui w))]
          /\ aw_alerts w' = aw_alerts w
          /\ admin_submit_payload (aw_ui w) !! "title" = None)
      /\ (afd_assigned_to fd <> [] -> ~ has_admin_profile (aw_db w) uid ->
          aw_ui w' = aw_ui w /\ aw_db w' = aw_db w)
      /\ (afd_assigned_to fd <> [] -> aw_db w' <> aw_db w ->
          has_admin_profile (aw_db w) uid
          /\ ad_showForm (aw_ui w') = false
          /\ ad_formData (aw_ui w') = mkAdminFormData [] (lit "Post") [] (format_date now) []
          /\ ad_profile (aw_ui w') = ad_profile (aw_ui w)
          /\ db_profiles (aw_db w') = db_profiles (aw_db w)
          /\ db_content_items (aw_db w) !! new_id = None
          /\ is_Some (timestamptz_in (afd_schedule_date fd))
          /\ is_Some (uuid_in (afd_assigned_to fd))
          /\ exists ctype,
               parse_content_type (afd_content_type fd) = Some ctype
               /\ db_content_items (aw_db w')
                  = <[new_id := ContentItem.mk (afd_caption fd) ctype (afd_media_url fd)
                                  (Some Pending)
                                  (timestamptz_in (afd_schedule_date fd))
                                  (ad_profile (aw_ui w) ≫= fun kp => uuid_in kp.1)
                                  (uuid_in (afd_assigned_to fd))
                                  (Some now) (Some now) None None]>
                      (db_content_items (aw_db w)))).
Proof.
  split.
  - intros w w' fd. unfold w', handleSubmit. fold fd.
    rewrite submit_payload_refused.
    destruct (falsy (fd_assigned_to fd)) eqn:Hf; cbn [w_ui w_db w_requests w_alerts].
    + apply bool_decide_eq_true in Hf.
      split; [reflexivity|]. split; [reflexivity|]. split; [done|]. intros Hne. contradiction.
    + apply bool_decide_eq_false in Hf.
      split; [reflexivity|]. split; [reflexivity|]. split; [intros He; contradiction|].
      intros _. split; [reflexivity|]. split; [reflexivity|].
      split; [apply submit_payload_title|reflexivity].
  - intros w w' fd. unfold w', AdminDashboard_handleSubmit. fold fd.
    destruct (falsy (afd_assigned_to fd)) eqn:Hf.
    + apply bool_decide_eq_true in Hf. cbn [aw_ui aw_db aw_requests aw_alerts].
      split; [done|]. repeat split; intros; contradiction.
    + apply bool_decide_eq_false in Hf.
      split; [intros He; contradiction|].
      destruct (insert_content_item _ _ _ _ _ _ _ _ _) as [e|db'] eqn:E;
        cbn [aw_ui aw_db aw_requests aw_alerts].
      * split; [intros _; split; [reflexivity|]; split; [reflexivity|];
                unfold admin_submit_payload, with_created_by;
                destruct (ad_profile (aw_ui w)); by lookup_body|].
        split; [done|]. intros _ Hch. contradiction.
      * split; [intros _; split; [reflexivity|]; split; [reflexivity|];
                unfold admin_submit_payload, with_created_by;
                destruct (ad_profile (aw_ui w)); by lookup_body|].
        apply insert_content_item_inr in E as (Hadm & r & Hr & Hs).
        split; [intros _ Hna; contradiction|]. intros _ _.
        apply admin_submit_payload_row in Hr
          as (Hid & Hcap & Hct & Hmu & Hst & Hsd & Hcb & Hat & Hca & Hua & Hrn & Hra
              & Hsd' & Hat').
        apply store_content_item_inr in Hs
          as (id & cap & ct & cty & mu & st & Eid & Ecap & Ect & Ecty & Emu & Est
              & Hnew & _ & _ & ->).
        rewrite Hst in Est. destruct Est as [_ ->]. rewrite parse_status_Pending.
        rewrite Hid in Eid. rewrite Hcap in Ecap. rewrite Hct in Ect. rewrite Hmu in Emu.
        simplify_eq. rewrite Hsd, Hcb, Hat, Hca, Hua, Hrn, Hra.
        cbn [ad_showForm ad_formData ad_profile db_profiles db_content_items admin_empty_form].
        fold fd. repeat (split; [done|]). exists cty. split; [exact Ecty|reflexivity].
Qed.

(** ** New users and the admin flag *)

Lemma handle_new_user_inr db new now db' :
  handle_new_user db new now = inr db' <->
  exists e, au_email new = Some e
    /\ db_profiles db !! au_id new = None
    /\ (forall k p, db_profiles db !! k = Some p -> Profile.email p <> e)
    /\ db' = mkDb (<[au_id new :=
                      Profile.mk e (au_raw_user_meta_data new !! "full_name"%string)
                        (Some (bool_decide (e = bootstrap_email))) (Some now) (Some now)]>
                     (db_profiles db))
                  (db_content_items db).
Proof.
  unfold handle_new_user. rewrite insert_profile_inr. split.
  - intros (e & He & Hid & Hu & ->). exists e. rewrite He. cbn. auto.
  - intros (e & He & Hid & Hu & ->). exists e. rewrite He. cbn. auto.
Qed.

Lemma has_admin_profile_insert_ne db k row uid :
  uid <> k ->
  has_admin_profile (mkDb (<[k := row]> (db_profiles db)) (db_content_items db)) uid
  <-> has_admin_profile db uid.
Proof.
  intros Hne. unfold has_admin_profile. cbn [db_profiles].
  rewrite lookup_insert_ne by congruence. reflexivity.
Qed.

(** X9: creating a user decides the admin status of that user by the email and
    changes nobody else's: the new principal is an admin exactly when the
    email is 'geral@stagelink.pt', and can read its own profile row and,
    unless it is that admin, no other. *)
Theorem new_user_admin_status
    (db : database) (new : auth_user) (now : timestamptz) (db' : database) (n : nat) :
  handle_new_user db new now = inr db' ->
  (has_admin_profile db' (au_id new) <-> au_email new = Some (lit "geral@stagelink.pt"))
  /\ (forall uid, uid <> au_id new ->
        (has_admin_profile db' uid <-> has_admin_profile db uid))
  /\ (forall q,
        result (can_read_profile final_catalog db' (au_id new) (S (S n)) q)
        = Some (bool_decide (q.1 = au_id new)
                || bool_decide (au_email new = Some (lit "geral@stagelink.pt")))).
Proof.
  intros (e & He & Hid & Hu & ->)%handle_new_user_inr.
  assert (Hadm : has_admin_profile
                   (mkDb (<[au_id new :=
                             Profile.mk e (au_raw_user_meta_data new !! "full_name"%string)
                               (Some (bool_decide (e = bootstrap_email))) (Some now)
                               (Some now)]> (db_profiles db)) (db_content_items db))
                   (au_id new)
                 <-> au_email new = Some (lit "geral@stagelink.pt")).
  { unfold has_admin_profile. cbn [db_profiles]. rewrite lookup_insert_eq, He. split.
    - intros (p & [= <-] & Hp). cbn in Hp. injection Hp as Hp.
      apply bool_decide_eq_true in Hp. by rewrite Hp.
    - intros [= ->]. eexists. split; [reflexivity|]. cbn. reflexivity. }
  split; [exact Hadm|]. split.
  - intros uid Hne. by apply has_admin_profile_insert_ne.
  - intros q. unfold can_read_profile. rewrite check_profiles_select.
    cbn [result]. f_equal. f_equal.
    + cbn. by destruct (bool_decide (q.1 = au_id new)).
    + apply eq_true_iff_eq. rewrite admin_flag_spec, bool_decide_eq_true. exact Hadm.
Qed.

(** ** Invariants of the reachable states *)








(** ** The views of the dashboard *)

Lemma filter_true {A} (l : list A) : List.filter (fun _ => true) l = l.
Proof. induction l as [|a l IH]; [reflexivity|]. cbn. by rewrite IH. Qed.

Lemma filter_filter {A} (f g : A -> bool) (l : list A) :
  List.filter f (List.filter g l) = List.filter (fun a => g a && f a) l.
Proof.
  induction l as [|a l IH]; [reflexivity|]. cbn.
  destruct (g a); cbn; [destruct (f a)|]; by rewrite IH.
Qed.

Lemma matches_all v : matches (lit "all") v = true.
Proof. unfold matches. rewrite bool_decide_eq_true_2; reflexivity. Qed.

(** X11: the calendar view keeps every item, archived ones included; the type
    view without filters shows exactly [currentContent]; the list view
    without filters shows the items of [currentContent] that are Pending or
    Rejected, and pays no attention to the status filter. *)
Theorem filteredItems_by_view
    (parseISO : text -> Date) (utc_offset : Z) (st : Dashboard) (now : timestamptz)
    (contentItems : list Item.t) :
  let p := partition_content parseISO utc_offset now contentItems in
  (viewMode st = view_calendar ->
   filteredItems parseISO utc_offset st now contentItems = contentItems)
  /\ (viewMode st = view_type ->
      selectedType st = lit "all" -> selectedStatus st = lit "all" ->
      selectedClient st = lit "all" ->
      filteredItems parseISO utc_offset st now contentItems = currentContent p)
  /\ (viewMode st = view_list ->
      selectedType st = lit "all" -> selectedClient st = lit "all" ->
      filteredItems parseISO utc_offset st now contentItems
      = List.filter (fun item => bool_decide (Item.status item = lit "Pending")
                                 || bool_decide (Item.status item = lit "Rejected"))
          (currentContent p))
  /\ (viewMode st = view_list ->
      forall s,
        filteredItems parseISO utc_offset
          (mkDashboard (viewMode st) (selectedType st) s (selectedClient st) (showForm st)
             (rejectionNotes st) (rejectingItemId st) (formData st) (profile st))
          now contentItems
        = filteredItems parseISO utc_offset st now contentItems).
Proof.
  intros p.
  assert (Hc : currentContent p
               = List.filter (fun item => negb (is_archived parseISO utc_offset now item))
                   contentItems).
  { unfold p, partition_content. rewrite fold_partition_step. reflexivity. }
  split; [|split; [|split]].
  - intros Hv. unfold filteredItems. rewrite Hv. apply filter_true.
  - intros Hv Ht Hs Hcl. unfold filteredItems. rewrite Hv, Ht, Hs, Hcl, Hc.
    apply filter_ext. intros item. rewrite !matches_all, !andb_true_r. reflexivity.
  - intros Hv Ht Hcl. unfold filteredItems. rewrite Hv, Ht, Hcl, Hc, filter_filter.
    apply filter_ext. intros item. rewrite !matches_all, !andb_true_r. reflexivity.
  - intros Hv s. unfold filteredItems. cbn [viewMode selectedType selectedClient].
    rewrite Hv. reflexivity.
Qed.

(** ** The groups of the archive view *)

Section ArchiveFacts.
Variable format_yyyy : text -> option text.
Variable format_MMMM : text -> option text.

Lemma group_of_default (g : gmap text (gmap text (list Item.t))) year month :
  default [] (default ∅ (g !! year) !! month) = group_of g year month.
Proof. unfold group_of. destruct (g !! year); cbn; [reflexivity|]. by rewrite lookup_empty. Qed.

Lemma group_of_insert g year month items year' month' :
  group_of (<[year := <[month := items]> (default ∅ (g !! year))]> g) year' month'
  = if bool_decide (year' = year /\ month' = month) then items
    else group_of g year' month'.
Proof.
  unfold group_of. destruct (decide (year' = year)) as [->|Hy].
  - rewrite lookup_insert_eq. cbn. destruct (decide (month' = month)) as [->|Hm].
    + rewrite lookup_insert_eq, bool_decide_eq_true_2 by auto. reflexivity.
    + rewrite lookup_insert_ne by congruence.
      rewrite bool_decide_eq_false_2 by (intros [? ?]; congruence).
      destruct (g !! year); cbn; [reflexivity|]. by rewrite lookup_empty.
  - rewrite lookup_insert_ne by congruence.
    rewrite bool_decide_eq_false_2 by (intros [? ?]; congruence). reflexivity.
Qed.

Lemma filter_snoc {A} (f : A -> bool) l a :
  List.filter f (l ++ [a]) = List.filter f l ++ (if f a then [a] else []).
Proof. rewrite List.filter_app. reflexivity. Qed.

Lemma group_step_groups l g item year month :
  groups_of format_yyyy format_MMMM l g ->
  format_yyyy (Item.schedule_date item) = Some year ->
  format_MMMM (Item.schedule_date item) = Some month ->
  exists g', group_step format_yyyy format_MMMM (Some g) item = Some g'
             /\ groups_of format_yyyy format_MMMM (l ++ [item]) g'.
Proof.
  intros [Hg Hne] Hy Hm. unfold group_step. rewrite Hy, Hm. eexists. split; [reflexivity|].
  split.
  - intros year' month'. rewrite group_of_insert, filter_snoc, <- Hg.
    unfold in_group at 1. rewrite Hy, Hm, group_of_default.
    case_bool_decide as H1; case_bool_decide as H2.
    + destruct H1 as [-> ->]. reflexivity.
    + destruct H1 as [-> ->]. exfalso. apply H2. auto.
    + destruct H2 as [[= ->] [= ->]]. exfalso. apply H1. auto.
    + by rewrite app_nil_r.
  - intros year' months. destruct (decide (year' = year)) as [->|Hne'].
    + rewrite lookup_insert_eq. intros [= <-]. eexists month, _.
      rewrite lookup_insert_eq. split; [reflexivity|]. by destruct (default [] _).
    + rewrite lookup_insert_ne by congruence. apply Hne.
Qed.

Lemma fold_group_step_None l :
  fold_left (group_step format_yyyy format_MMMM) l None = None.
Proof. induction l as [|a l IH]; [reflexivity|]. exact IH. Qed.

Lemma itemsByYearAndMonth_groups archived :
  Forall (fun item => is_Some (format_yyyy (Item.schedule_date item))
                      /\ is_Some (format_MMMM (Item.schedule_date item))) archived ->
  exists g, itemsByYearAndMonth format_yyyy format_MMMM archived = Some g
            /\ groups_of format_yyyy format_MMMM archived g.
Proof.
  unfold itemsByYearAndMonth. induction archived as [|item l IH] using rev_ind.
  - intros _. exists ∅. split; [reflexivity|]. split.
    + intros y m. unfold group_of. by rewrite lookup_empty.
    + intros y months H. by rewrite lookup_empty in H.
  - intros [Hl Hitem]%Forall_app. apply Forall_inv in Hitem as [[y Hy] [m Hm]].
    destruct (IH Hl) as (g & Hg & Hgroups).
    rewrite fold_left_app, Hg. cbn [fold_left].
    by eapply group_step_groups.
Qed.
End ArchiveFacts.

(** X12: the archive view groups the archived items by year and month of their
    schedule date: when every date can be formatted, each group holds
    exactly the items of that year and month, in the order of the list,
    there is no empty year, and "No archived content" is shown exactly when
    there is no archived item; one date that cannot be formatted and the
    whole grouping fails. *)
Theorem itemsByYearAndMonth_partitions
    (format_yyyy format_MMMM : text -> option text) (archived : list Item.t) :
  (Forall (fun item => is_Some (format_yyyy (Item.schedule_date item))
                       /\ is_Some (format_MMMM (Item.schedule_date item))) archived ->
   exists g,
     itemsByYearAndMonth format_yyyy format_MMMM archived = Some g
     /\ (forall year month,
           group_of g year month
           = List.filter
               (fun item =>
                  bool_decide (format_yyyy (Item.schedule_date item) = Some year
                               /\ format_MMMM (Item.schedule_date item) = Some month))
               archived)
     /\ (forall year months, g !! year = Some months ->
           exists month items, months !! month = Some items /\ items <> [])
     /\ (no_archived_content g = true <-> archived = []))
  /\ (List.Exists (fun item => format_yyyy (Item.schedule_date item) = None
                          \/ format_MMMM (Item.schedule_date item) = None) archived ->
      itemsByYearAndMonth format_yyyy format_MMMM archived = None).
Proof.
  split.
  - intros Hall.
    destruct (itemsByYearAndMonth_groups _ _ _ Hall) as (g & Hg & Hgroup & Hne).
    exists g. split; [exact Hg|]. split; [exact Hgroup|]. split; [exact Hne|].
    unfold no_archived_content. rewrite bool_decide_eq_true, map_size_empty_iff. split.
    + intros ->. destruct archived as [|item l]; [reflexivity|]. exfalso.
      apply Forall_inv in Hall as [[y Hy] [m Hm]].
      pose proof (Hgroup y m) as H. unfold group_of in H. rewrite lookup_empty in H.
      cbn in H. unfold in_group in H. rewrite Hy, Hm in H.
      rewrite bool_decide_eq_true_2 in H by auto. discriminate.
    + intros ->. by injection Hg as <-.
  - intros Hex. unfold itemsByYearAndMonth.
    generalize (Some (∅ : gmap text (gmap text (list Item.t)))).
    induction Hex as [item l Hbad|item l _ IH]; intros acc.
    + cbn [fold_left].
      assert (group_step format_yyyy format_MMMM acc item = None) as ->.
      { unfold group_step. destruct acc; [|reflexivity].
        destruct Hbad as [-> | ->]; [reflexivity|].
        by destruct (format_yyyy (Item.schedule_date item)). }
      apply fold_group_step_None.
    + cbn [fold_left]. apply IH.
Qed.

(** ** Routes *)

(** X13: whatever the location, one redirect at most leads to a page; without a
    session every route of the application ends at the login page; the
    dashboard is shown only with a session, and the admin page only at its
    route, with a session and the profile email 'geral@stagelink.pt'. *)
Theorem routes_guard_pages
    (session : bool) (profile : option (uuid * Profile.t)) (l : location) :
  is_Some (shown 1 session profile l)
  /\ (session = false -> l <> loc_none -> shown 1 session profile l = Some LoginPage)
  /\ (shown 1 session profile l = Some DashboardPage -> session = true)
  /\ (shown 1 session profile l = Some (AdminDashboardPage AdminPage)
      <-> l = loc_admin /\ session = true
          /\ exists kp, profile = Some kp /\ Profile.email kp.2 = lit "geral@stagelink.pt").
Proof.
  split; [|split; [|split]].
  - destruct l, session; cbn; eauto.
  - intros -> Hl. destruct l; cbn; try reflexivity. contradiction.
  - destruct l, session; cbn; try discriminate; reflexivity.
  - unfold AdminDashboard. split.
    + destruct l, session; cbn; try discriminate. unfold AdminDashboard.
      case_bool_decide as He; cbn; [|discriminate]. intros _.
      destruct profile as [kp|]; [|discriminate]. cbn in He. injection He as He. eauto.
    + intros (-> & -> & kp & -> & He). cbn. unfold AdminDashboard. cbn.
      rewrite He, bool_decide_eq_true_2 by reflexivity. reflexivity.
Qed.

(** ** The queries of the pages *)

Lemma filterM_result {A} (f : A -> outcome bool) (g : A -> bool) (l : list A) :
  (forall a, result (f a) = Some (g a)) ->
  result (filterM f l) = Some (List.filter g l).
Proof.
  intros Hf. induction l as [|a l IH]; [reflexivity|].
  cbn [filterM List.filter]. specialize (Hf a).
  destruct (f a) as [b tr| |]; try discriminate. injection Hf as ->.
  destruct (filterM f l) as [r tr'| |]; try discriminate. injection IH as ->.
  cbn. destruct (g a); reflexivity.
Qed.

Lemma mapM_result {A B} (f : A -> outcome B) (g : A -> B) (l : list A) :
  (forall a, result (f a) = Some (g a)) ->
  result (mapM f l) = Some (g <$> l).
Proof.
  intros Hf. induction l as [|a l IH]; [reflexivity|].
  cbn [mapM]. specialize (Hf a).
  destruct (f a) as [b tr| |]; try discriminate. injection Hf as ->.
  destruct (mapM f l) as [r tr'| |]; try discriminate. injection IH as ->.
  reflexivity.
Qed.

Lemma result_bind {A B} (m : outcome A) (k : A -> outcome B) a :
  result m = Some a -> result (bind m k) = result (k a).
Proof.
  destruct m as [a' tr| |]; try discriminate. intros [= ->]. cbn.
  destruct (k a); reflexivity.
Qed.

Lemma can_read_profile_result db uid n q :
  result (can_read_profile final_catalog db uid (S (S n)) q)
  = Some (bool_decide (q.1 = uid) || admin_flag db uid).
Proof.
  unfold can_read_profile. rewrite check_profiles_select. cbn.
  by destruct (bool_decide (q.1 = uid)).
Qed.

Lemma select_non_admin_profiles_result db uid n :
  result (select_non_admin_profiles final_catalog db uid (S (S n)))
  = Some (List.filter (fun kp => bool_decide (Profile.is_admin kp.2 = Some false))
            (List.filter (fun kp => bool_decide (kp.1 = uid) || admin_flag db uid)
               (map_to_list (db_profiles db)))).
Proof.
  unfold select_non_admin_profiles, select_profiles.
  erewrite result_bind; [reflexivity|].
  apply filterM_result. intros q. apply can_read_profile_result.
Qed.

Lemma AdminDashboard_profiles_final db uid n :
  AdminDashboard_profiles final_catalog db uid (S (S n))
  = List.filter (fun kp => bool_decide (Profile.is_admin kp.2 = Some false))
      (List.filter (fun kp => bool_decide (kp.1 = uid) || admin_flag db uid)
         (map_to_list (db_profiles db))).
Proof.
  unfold AdminDashboard_profiles. rewrite select_non_admin_profiles_result. reflexivity.
Qed.

(** X14: the users offered in "Assign To": an admin gets exactly the profiles
    whose flag is false, so never an admin and never a profile with no
    flag; a principal who is not an admin gets at most their own profile;
    the dashboard does not even ask unless the email says admin. *)
Theorem assignable_profiles_are_the_non_admins
    (db : database) (uid : uuid) (n : nat) :
  (forall k p,
      In (k, p) (AdminDashboard_profiles final_catalog db uid (S (S n)))
      <-> db_profiles db !! k = Some p
          /\ Profile.is_admin p = Some false
          /\ (k = uid \/ has_admin_profile db uid))
  /\ NoDup (fst <$> AdminDashboard_profiles final_catalog db uid (S (S n)))
  /\ (forall profile,
        Dashboard_profiles final_catalog db uid (S (S n)) profile
        = if isAdmin profile
          then AdminDashboard_profiles final_catalog db uid (S (S n))
          else []).
Proof.
  split; [|split]; [rewrite AdminDashboard_profiles_final..|].
  - intros k p. rewrite !filter_In, <- list_elem_of_In, elem_of_map_to_list.
    cbn [fst snd]. rewrite bool_decide_eq_true, orb_true_iff, bool_decide_eq_true,
      admin_flag_spec. tauto.
  - apply NoDup_fmap_fst.
    + intros k p1 p2 H1 H2. apply list_elem_of_In in H1, H2.
      rewrite !filter_In, <- !list_elem_of_In, !elem_of_map_to_list in H1, H2.
      destruct H1 as [[H1 _] _], H2 as [[H2 _] _]. congruence.
    + apply NoDup_ListNoDup, List.NoDup_filter, List.NoDup_filter, NoDup_ListNoDup,
        NoDup_map_to_list.
  - intros profile. reflexivity.
Qed.

Lemma schedule_le_total : Total schedule_le.
Proof.
  intros a b. unfold schedule_le.
  destruct (ContentItem.schedule_date (cr_item a)),
           (ContentItem.schedule_date (cr_item b)); auto. lia.
Qed.

(** The profile embedded in a row the principal can read. *)
Lemma embed_assignee_result db uid n c :
  ContentItem.assigned_to c = Some uid \/ has_admin_profile db uid ->
  result (embed_assignee final_catalog db uid (S (S n)) c)
  = Some ((fun p => (Profile.email p, Profile.full_name p))
          <$> (ContentItem.assigned_to c ≫= fun a => db_profiles db !! a)).
Proof.
  intros Hperm. unfold embed_assignee.
  destruct (ContentItem.assigned_to c) as [a|] eqn:Ea; [|reflexivity]. cbn.
  destruct (db_profiles db !! a) as [p|]; [|reflexivity].
  erewrite result_bind by apply can_read_profile_result. cbn.
  assert (bool_decide (a = uid) || admin_flag db uid = true) as ->; [|reflexivity].
  apply orb_true_iff. destruct Hperm as [[= ->]|Hadm].
  - left. by apply bool_decide_eq_true.
  - right. by apply admin_flag_spec.
Qed.

Lemma can_read_content_result db uid n c :
  result (can_read_content final_catalog db uid (S (S n)) c)
  = Some (assigned_to_uid uid (content_tuple c) || admin_flag db uid).
Proof. unfold can_read_content. rewrite check_content_select. reflexivity. Qed.

Lemma mapM_result_on {A B} (f : A -> outcome B) (g : A -> B) (l : list A) :
  (forall a, In a l -> result (f a) = Some (g a)) ->
  result (mapM f l) = Some (g <$> l).
Proof.
  induction l as [|a l IH]; [reflexivity|]. intros Hf.
  cbn [mapM]. pose proof (Hf a (or_introl eq_refl)) as Ha.
  destruct (f a) as [b tr| |]; try discriminate. injection Ha as ->.
  specialize (IH (fun x Hx => Hf x (or_intror Hx))).
  destruct (mapM f l) as [r tr'| |]; try discriminate. injection IH as ->.
  reflexivity.
Qed.

Lemma select_content_items_result db uid n assigned :
  result (select_content_items final_catalog db uid (S (S n)) assigned)
  = Some (merge_sort schedule_le
            (content_row_of db
             <$> List.filter
                   (fun kc => match assigned with
                              | Some u => bool_decide (ContentItem.assigned_to kc.2 = Some u)
                              | None => true
                              end)
                   (List.filter
                      (fun kc => assigned_to_uid uid (content_tuple kc) || admin_flag db uid)
                      (map_to_list (db_content_items db))))).
Proof.
  unfold select_content_items.
  erewrite result_bind
    by (apply filterM_result; intros c; apply can_read_content_result).
  erewrite result_bind; [reflexivity|].
  apply mapM_result_on. intros kc Hin.
  apply filter_In in Hin as [Hin _]. apply filter_In in Hin as [_ Hperm].
  erewrite result_bind; [reflexivity|].
  apply embed_assignee_result. destruct kc as [k c]. by apply may_update_spec in Hperm.
Qed.

(** X15: the content query of the dashboard, for a principal looking at their
    own profile: it returns the items assigned to the principal, and all
    items only when both the admin flag and the email say admin; every row
    comes with the email and name of its assignee; the rows are in the order
    of their schedule date, those without one last.  Without a profile the
    result is empty. *)
Theorem Dashboard_contentItems_shows_assigned_or_all
    (db : database) (uid : uuid) (p : Profile.t) (n : nat) :
  uid <> [] ->
  (exists rows,
      result (Dashboard_contentItems final_catalog db uid (S (S n)) (Some (uid, p)))
      = Some rows
      /\ (forall r,
            In r rows
            <-> db_content_items db !! cr_id r = Some (cr_item r)
                /\ (ContentItem.assigned_to (cr_item r) = Some uid
                    \/ (has_admin_profile db uid
                        /\ Profile.email p = lit "geral@stagelink.pt"))
                /\ cr_assigned_to_profile r
                   = (fun q => (Profile.email q, Profile.full_name q))
                     <$> (ContentItem.assigned_to (cr_item r)
                          ≫= fun a => db_profiles db !! a))
      /\ Sorted schedule_le rows)
  /\ result (Dashboard_contentItems final_catalog db uid (S (S n)) None) = Some [].
Proof.
  intros Hne. split; [|reflexivity].
  unfold Dashboard_contentItems. cbn [fst].
  assert (falsy uid = false) as -> by (by apply bool_decide_eq_false).
  rewrite select_content_items_result. eexists. split; [reflexivity|]. split.
  - intros r.
    rewrite <- list_elem_of_In, merge_sort_Permutation, list_elem_of_fmap.
    unfold content_query_filter, isAdmin. cbn [fst snd]. split.
    + intros ([k c] & -> & Hin). apply list_elem_of_In in Hin.
      apply filter_In in Hin as [Hin Hf]. apply filter_In in Hin as [Hin Hperm].
      apply list_elem_of_In, elem_of_map_to_list in Hin.
      apply may_update_spec in Hperm. cbn [content_row_of cr_id cr_item fst snd
        cr_assigned_to_profile].
      split; [exact Hin|]. split; [|reflexivity].
      case_bool_decide as He.
      * destruct Hperm as [Ha|Hadm]; auto.
      * left. by apply bool_decide_eq_true in Hf.
    + intros (Hin & Hwho & He). destruct r as [k c e]. cbn in *.
      exists (k, c). split; [unfold content_row_of; cbn; by rewrite He|].
      apply list_elem_of_In, filter_In. split.
      * apply filter_In. split; [by apply list_elem_of_In, elem_of_map_to_list|].
        apply (may_update_spec _ _ k). destruct Hwho as [Ha|[Hadm _]]; auto.
      * cbn. case_bool_decide as Hem; [reflexivity|].
        apply bool_decide_eq_true. destruct Hwho as [Ha|[_ Hb]]; [exact Ha|contradiction].
  - apply (Sorted_merge_sort schedule_le (Total0 := schedule_le_total)).
Qed.

(** X16: rejecting without effect: with no item being rejected (or an empty id)
    handleReject does nothing at all; for an item that does not exist, or
    that the principal is neither assigned nor admin for, it sends the
    update, the database accepts it without touching any row, and the
    dialog is closed and emptied as after a rejection that took place. *)
Theorem handleReject_without_effect
    (uid : uuid) (n : nat) (w : world) (now : timestamptz) :
  (forall cat fuel,
      rejectingItemId (w_ui w) = None \/ rejectingItemId (w_ui w) = Some [] ->
      handleReject cat fuel uid w now = w)
  /\ (forall id : uuid,
        rejectingItemId (w_ui w) = Some id ->
        id <> [] ->
        ~ blank (rejectionNotes (w_ui w)) ->
        db_content_items (w_db w) !! id = None
        \/ (exists c, db_content_items (w_db w) !! id = Some c
                      /\ ContentItem.assigned_to c <> Some uid
                      /\ ~ has_admin_profile (w_db w) uid) ->
        let w' := handleReject final_catalog (S (S n)) uid w now in
        w_db w' = w_db w
        /\ w_requests w'
           = w_requests w ++ [ReqUpdate id (reject_patch (rejectionNotes (w_ui w)) now)]
        /\ rejectingItemId (w_ui w') = None
        /\ rejectionNotes (w_ui w') = []).
Proof.
  split.
  - intros cat fuel [H | H]; unfold handleReject; rewrite H; reflexivity.
  - intros id Hid Hne Hnb Hcase w'. unfold w', handleReject. rewrite Hid.
    assert (falsy id = false) as -> by (by apply bool_decide_eq_false).
    assert (falsy (trim (rejectionNotes (w_ui w))) = false) as ->.
    { apply not_true_is_false. intros H%falsy_trim_blank. contradiction. }
    cbn [orb].
    assert (update_content_item final_catalog (S (S n)) (w_db w) uid id
              (reject_patch (rejectionNotes (w_ui w)) now) = inr (w_db w)) as ->.
    { destruct Hcase as [Hnone | (c & Hc & Hna & Hnadm)].
      - by apply update_missing_row.
      - apply (update_refused_keeps_assignee _ _ _ _ c); [assumption|reflexivity|].
        intros [? | ?]; contradiction. }
    repeat split; reflexivity.
Qed.

Lemma handleReject_without_effect_witness :
  rejectingItemId (w_ui (ex_world (lit " no ") (Some ex_new_id) ex_client)) = Some ex_new_id
  /\ rejectingItemId
       (w_ui (handleReject final_catalog 2 ex_client
                (ex_world (lit " no ") (Some ex_new_id) ex_client) 77)) = None.
Proof.
  split; [reflexivity|].
  destruct (handleReject_without_effect ex_client 0
              (ex_world (lit " no ") (Some ex_new_id) ex_client) 77) as [_ H].
  destruct (H ex_new_id) as (_ & _ & Hclosed & _).
  - reflexivity.
  - vm_compute. discriminate.
  - exact ex_notes_not_blank.
  - left. vm_compute. reflexivity.
  - exact Hclosed.
Defined.

Lemma Dashboard_contentItems_shows_assigned_or_all_witness :
  ex_client <> []
  /\ exists rows,
       result (Dashboard_contentItems final_catalog ex_db ex_client 2
                 (Some (ex_client,
                        Profile.mk (lit "client@example.com") (Some (lit "Client"))
                          (Some false) (Some 0) (Some 0)))) = Some rows
       /\ In (content_row_of ex_db (ex_item_id, ex_item)) rows.
Proof.
  assert (Hne : ex_client <> []) by (vm_compute; discriminate).
  split; [exact Hne|].
  destruct (Dashboard_contentItems_shows_assigned_or_all ex_db ex_client
              (Profile.mk (lit "client@example.com") (Some (lit "Client")) (Some false)
                 (Some 0) (Some 0)) 0 Hne) as [(rows & Hrows & Hin & _) _].
  exists rows. split; [exact Hrows|]. apply Hin.
  split; [vm_compute; reflexivity|]. split; [left; reflexivity|reflexivity].
Defined.

(** ** The further properties on the example data *)

Lemma ex_profiles_not_empty : db_profiles ex_db <> ∅.
Proof.
  intros H. apply (f_equal (fun m => m !! ex_admin)) in H.
  vm_compute in H. discriminate.
Defined.

Lemma first_two_migrations_recurse_witness :
  db_profiles ex_db <> ∅
  /\ can_read_profile initial_catalog ex_db ex_client 100 (ex_client, Profile.mk (lit "client@example.com") (Some (lit "Client")) (Some false) (Some 0) (Some 0)) = Diverge
  /\ can_read_content violet_catalog ex_db ex_client 100 (ex_item_id, ex_item) = Diverge.
Proof.
  split; [exact ex_profiles_not_empty|]. split.
  - destruct (first_two_migrations_recurse ex_db ex_client 100 ex_profiles_not_empty
                initial_catalog (or_introl eq_refl)) as (H & _).
    apply H.
  - destruct (first_two_migrations_recurse ex_db ex_client 100 ex_profiles_not_empty
                violet_catalog (or_intror eq_refl)) as (_ & H & _).
    apply H.
Defined.

Lemma ex_approve :
  update_content_item final_catalog 2 ex_db ex_client ex_item_id (status_patch Approved)
  = inr (mkDb ex_profiles (<[ex_item_id := apply_patch (status_patch Approved) ex_item]>
                             (<[ex_item_id := ex_item]> ∅))).
Proof. vm_compute. reflexivity. Defined.

Lemma profiles_are_read_only_witness :
  update_content_item final_catalog 2 ex_db ex_client ex_item_id (status_patch Approved)
  = inr (mkDb ex_profiles (<[ex_item_id := apply_patch (status_patch Approved) ex_item]>
                             (<[ex_item_id := ex_item]> ∅)))
  /\ db_profiles (mkDb ex_profiles
                    (<[ex_item_id := apply_patch (status_patch Approved) ex_item]>
                       (<[ex_item_id := ex_item]> ∅)))
     = db_profiles ex_db.
Proof.
  split; [exact ex_approve|].
  destruct (profiles_are_read_only ex_timestamptz_in ex_uuid_in ex_db ex_client 2) as (_ & _ & H).
  exact (H _ _ _ ex_approve).
Defined.

Lemma update_touches_one_row_witness :
  db_content_items ex_db !! ex_new_id = None
  /\ update_content_item final_catalog 2 ex_db ex_client ex_new_id (status_patch Approved)
     = inr ex_db.
Proof.
  assert (H : db_content_items ex_db !! ex_new_id = None) by (vm_compute; reflexivity).
  split; [exact H|].
  destruct (update_touches_one_row final_catalog 2 ex_db ex_client ex_new_id
              (status_patch Approved)) as [Hnone _].
  exact (Hnone H).
Defined.

Lemma reassignment_only_by_admin_witness :
  db_content_items ex_db !! ex_item_id = Some ex_item
  /\ update_content_item final_catalog 2 ex_db ex_client ex_item_id
       (mkPatch None None None (Some ex_other)) = inl RlsViolation.
Proof.
  assert (Hc : db_content_items ex_db !! ex_item_id = Some ex_item)
    by (vm_compute; reflexivity).
  split; [exact Hc|].
  destruct (reassignment_only_by_admin ex_db ex_client 0 ex_item_id ex_item
              (mkPatch None None None (Some ex_other)) ex_other Hc eq_refl)
    as (Hrefused & _ & _).
  - vm_compute. discriminate.
  - apply Hrefused; [reflexivity|exact ex_client_not_admin].
Defined.

Lemma handleStatusUpdate_sets_status_only_witness :
  db_content_items (w_db (ex_world [] None ex_client)) !! ex_item_id = Some ex_item
  /\ w_requests (handleStatusUpdate final_catalog 2 ex_client (ex_world [] None ex_client)
                   ex_item_id Approved)
     = [ReqUpdate ex_item_id (status_patch Approved)].
Proof.
  assert (Hc : db_content_items (w_db (ex_world [] None ex_client)) !! ex_item_id
               = Some ex_item) by (vm_compute; reflexivity).
  split; [exact Hc|].
  destruct (handleStatusUpdate_sets_status_only ex_client 0 (ex_world [] None ex_client)
              ex_item_id ex_item Approved Hc) as [Happrove _].
  destruct Happrove as (_ & Hreq & _); [discriminate|exact Hreq].
Defined.

Lemma status_transitions_are_not_guarded_witness :
  let w := mkWorld (ex_dashboard (lit " no ") (Some ex_item_id) ex_client)
             (mkDb ex_profiles (<[ex_item_id := apply_patch (status_patch Approved) ex_item]>
                                  (<[ex_item_id := ex_item]> ∅))) [] [] in
  (ContentItem.status
   <$> db_content_items (w_db (handleReject final_catalog 2 ex_client w 77)) !! ex_item_id)
  = Some (Some Rejected).
Proof.
  intros w.
  destruct (status_transitions_are_not_guarded ex_client 0 w ex_item_id
              (apply_patch (status_patch Approved) ex_item) 77) as [H _].
  - vm_compute. reflexivity.
  - reflexivity.
  - vm_compute. discriminate.
  - exact ex_notes_not_blank.
  - left. reflexivity.
  - exact H.
Defined.

Lemma ex_admin_form_changes_db :
  aw_db (AdminDashboard_handleSubmit ex_timestamptz_in ex_uuid_in ex_format_date final_catalog 2
           ex_admin (ex_admin_world ex_admin) ex_new_id 5)
  <> aw_db (ex_admin_world ex_admin).
Proof.
  intros H. apply (f_equal (fun d => db_content_items d !! ex_new_id)) in H.
  vm_compute in H. discriminate.
Defined.

Lemma handleSubmit_outcomes_witness :
  afd_assigned_to (ad_formData (aw_ui (ex_admin_world ex_admin))) <> []
  /\ aw_db (AdminDashboard_handleSubmit ex_timestamptz_in ex_uuid_in ex_format_date
              final_catalog 2 ex_admin (ex_admin_world ex_admin) ex_new_id 5)
     <> aw_db (ex_admin_world ex_admin)
  /\ ad_showForm
       (aw_ui (AdminDashboard_handleSubmit ex_timestamptz_in ex_uuid_in ex_format_date
                 final_catalog 2 ex_admin (ex_admin_world ex_admin) ex_new_id 5))
     = false
  /\ ~ has_admin_profile (aw_db (ex_admin_world ex_client)) ex_client
  /\ aw_db (AdminDashboard_handleSubmit ex_timestamptz_in ex_uuid_in ex_format_date
              final_catalog 2 ex_client (ex_admin_world ex_client) ex_new_id 5)
     = aw_db (ex_admin_world ex_client).
Proof.
  assert (Hne : forall who,
             afd_assigned_to (ad_formData (aw_ui (ex_admin_world who))) <> [])
    by (intros who; vm_compute; discriminate).
  split; [exact (Hne ex_admin)|]. split; [exact ex_admin_form_changes_db|].
  split.
  - destruct (handleSubmit_outcomes ex_timestamptz_in ex_uuid_in ex_format_date ex_admin 0
                ex_new_id 5) as [_ Hadmin].
    destruct (Hadmin (ex_admin_world ex_admin)) as (_ & _ & _ & Hdone).
    destruct (Hdone (Hne ex_admin) ex_admin_form_changes_db) as (_ & Hclosed & _).
    exact Hclosed.
  - split; [exact ex_client_not_admin|].
    destruct (handleSubmit_outcomes ex_timestamptz_in ex_uuid_in ex_format_date ex_client 0
                ex_new_id 5) as [_ Hadmin].
    destruct (Hadmin (ex_admin_world ex_client)) as (_ & _ & Hrefused & _).
    destruct (Hrefused (Hne ex_client) ex_client_not_admin) as [_ Hdb]. exact Hdb.
Defined.

Lemma ex_first_user_created : handle_new_user (mkDb ∅ ∅) ex_first_user 3 = inr ex_first_db.
Proof. vm_compute. reflexivity. Defined.

Lemma new_user_admin_status_witness :
  handle_new_user (mkDb ∅ ∅) ex_first_user 3 = inr ex_first_db
  /\ (has_admin_profile ex_first_db (au_id ex_first_user)
      <-> au_email ex_first_user = Some (lit "geral@stagelink.pt")).
Proof.
  split; [exact ex_first_user_created|].
  destruct (new_user_admin_status (mkDb ∅ ∅) ex_first_user 3 ex_first_db 0
              ex_first_user_created) as [H _].
  exact H.
Defined.



Lemma filteredItems_by_view_witness :
  let items := [ex_item_of (lit "a") (lit "2025-02-24");
                ex_item_of (lit "b") (lit "2025-02-25")] in
  let st := mkDashboard view_calendar (lit "all") (lit "all") (lit "all") false [] None
              (mkFormData [] [] [] [] [] []) None in
  viewMode st = view_calendar
  /\ filteredItems ex_parseISO 0 st (ex_today + 5) items = items.
Proof.
  intros items st. split; [reflexivity|].
  destruct (filteredItems_by_view ex_parseISO 0 st (ex_today + 5) items) as (Hcal & _).
  apply Hcal. reflexivity.
Defined.

Lemma ex_dates_format :
  Forall (fun item => is_Some (ex_format_yyyy (Item.schedule_date item))
                      /\ is_Some (ex_format_MMMM (Item.schedule_date item)))
    [ex_item_of (lit "a") (lit "2025-02-24")].
Proof. repeat constructor; vm_compute; eauto. Defined.

Lemma itemsByYearAndMonth_partitions_witness :
  Forall (fun item => is_Some (ex_format_yyyy (Item.schedule_date item))
                      /\ is_Some (ex_format_MMMM (Item.schedule_date item)))
    [ex_item_of (lit "a") (lit "2025-02-24")]
  /\ exists g,
       itemsByYearAndMonth ex_format_yyyy ex_format_MMMM
         [ex_item_of (lit "a") (lit "2025-02-24")] = Some g
       /\ group_of g (lit "2025") (lit "February") = [ex_item_of (lit "a") (lit "2025-02-24")].
Proof.
  split; [exact ex_dates_format|].
  destruct (itemsByYearAndMonth_partitions ex_format_yyyy ex_format_MMMM
              [ex_item_of (lit "a") (lit "2025-02-24")]) as [Hgroups _].
  destruct (Hgroups ex_dates_format) as (g & Hg & Hgroup & _).
  exists g. split; [exact Hg|]. rewrite Hgroup. vm_compute. reflexivity.
Defined.

Lemma routes_guard_pages_witness :
  shown 1 false None loc_admin = Some LoginPage.
Proof.
  destruct (routes_guard_pages false None loc_admin) as (_ & Hlogin & _).
  apply Hlogin; [reflexivity|discriminate].
Defined.
